(** * A shallow embedding of the research-assistant glue code

    The program screens a user prompt with a moderation model, lets an
    LLM agent run, fans out web searches (src/search/exa.py) and page
    extractions (src/search/crawler.py), and screens every extracted page
    again.  The hosted services are opaque: they appear here as oracles
    whose answers are arbitrary, and every call to one of them is logged
    as an event, so that "no network call was made" is a statement about
    the log. *)

From Stdlib Require Import ZArith NArith List String Ascii Bool Lia.
From Corelib Require Import SpecFloat.
From stdpp Require Import base option list gmap.

Local Open Scope Z_scope.

(** ** Python values *)

(** A Python [str] is a sequence of Unicode code points. *)
Definition pystr : Type := list N.

(** Literals of the source are written as Rocq strings; their characters
    are all in the ASCII range. *)
Definition py (s : string) : pystr :=
  (λ a, N_of_ascii a) <$> list_ascii_of_string s.

(** Truthiness of a sequence: [if s] holds exactly when [s] is not empty. *)
Definition truthy {A} (s : list A) : bool :=
  match s with [] => false | _ :: _ => true end.

(** Truthiness of an optional argument: [None] and the empty sequence are
    both falsy. *)
Definition truthy_opt {A} (o : option (list A)) : bool :=
  match o with None => false | Some s => truthy s end.

(** [str.isspace] on one code point (CPython's [_PyUnicode_IsWhitespace]). *)
Definition py_isspace (c : N) : bool :=
  ((9 <=? c) && (c <=? 13) || (28 <=? c) && (c <=? 32)
   || (c =? 133) || (c =? 160) || (c =? 5760)
   || (8192 <=? c) && (c <=? 8202)
   || (c =? 8232) || (c =? 8233) || (c =? 8239) || (c =? 8287)
   || (c =? 12288))%N.

Fixpoint lstrip (s : pystr) : pystr :=
  match s with
  | [] => []
  | c :: s' => if py_isspace c then lstrip s' else s
  end.

Definition rstrip (s : pystr) : pystr := rev (lstrip (rev s)).

(** [s.strip()] *)
Definition strip (s : pystr) : pystr := rstrip (lstrip s).

(** [s.split(sep)] for a one-character separator: never the empty list. *)
Fixpoint split_on (sep : N) (s : pystr) : list pystr :=
  match s with
  | [] => [[]]
  | c :: s' =>
      if (c =? sep)%N then [] :: split_on sep s'
      else match split_on sep s' with
           | [] => [[c]]
           | w :: ws => (c :: w) :: ws
           end
  end.

(** [sep.join(parts)] *)
Fixpoint join (sep : pystr) (parts : list pystr) : pystr :=
  match parts with
  | [] => []
  | [p] => p
  | p :: ps => p ++ sep ++ join sep ps
  end.

Definition newline : N := 10%N.

(** A Python [float] is an IEEE 754 binary64 value; comparisons follow
    IEEE 754, so every comparison with a NaN is false. *)
Definition pyfloat : Type := spec_float.

Definition float_gt (a b : pyfloat) : bool := SFltb b a.
Definition float_le (a b : pyfloat) : bool := SFleb a b.
Definition float_lt (a b : pyfloat) : bool := SFltb a b.

(** The literal [0.6]: the binary64 value nearest to 6/10, which is
    5404319552844595 * 2^-53. *)
Definition f0_6 : pyfloat := S754_finite false 5404319552844595 (-53).

(** The literal [0.0]. *)
Definition f0_0 : pyfloat := S754_zero false.

(** Truthiness of a float: zeros are falsy, everything else (NaN too) is
    truthy. *)
Definition truthy_float (f : pyfloat) : bool :=
  match f with S754_zero _ => false | _ => true end.

(** ** Exceptions *)

Inductive exn_class :=
| ExaSearchException   (* src/models.py *)
| IndexError
| TypeError
| ValueError
| OtherError.          (* any other subclass of Exception, e.g. a network error *)

(** An exception: its class and [str(e)]. *)
Record exn := Exn { exn_cls : exn_class; exn_msg : pystr }.

#[global] Instance exn_class_eq_dec : EqDecision exn_class.
Proof. solve_decision. Defined.

(** ** src/models.py *)

Record SearchResult := mkSearchResult {
  sr_title : pystr;
  sr_url : pystr;
  sr_published_date : option pystr;
  sr_author : option pystr;
  sr_score : pyfloat;
  sr_text : option pystr;
  sr_summary : option pystr;
}.

Record ExtractionResult := mkExtractionResult {
  er_url : pystr;
  er_success : bool;
  er_content : option pystr;
  er_title : option pystr;
  er_error : option pystr;
}.

(** ** What the hosted services send back *)

(** The object [crawler.arun] returns, as far as the program reads it.
    [None] in an attribute read through [getattr] with a default means
    that the attribute is missing (for [markdown_v2] and [markdown]: or
    holds [None], which the program treats alike). *)
Record MarkdownV2 := mkMarkdownV2 {
  raw_markdown : option pystr;      (* [None]: no such attribute *)
}.

Record CrawlResult := mkCrawlResult {
  cr_success : bool;
  cr_markdown_v2 : option MarkdownV2;
  cr_markdown : option pystr;
  cr_html : option pystr;
}.

(** One element of [raw_results.results] of the search service. *)
Record RawResult := mkRawResult {
  raw_title : option pystr;
  raw_url : pystr;
  raw_published_date : option pystr;
  raw_author : option pystr;
  raw_score : option pyfloat;
  raw_text : option pystr;        (* [getattr(result, "text", None)] *)
  raw_summary : option pystr;     (* [getattr(result, "summary", None)] *)
}.

(** The [search_params] dictionary handed to [exa.search_and_contents]:
    a key that the code sets only under a condition is an [option]. *)
Record SearchParams := mkSearchParams {
  p_query : pystr;
  p_type : pystr;
  p_num_results : Z;
  p_text : bool;
  p_category : option pystr;
  p_include_domains : option (list pystr);
  p_exclude_domains : option (list pystr);
  p_start_crawl_date : option pystr;
  p_end_crawl_date : option pystr;
  p_start_published_date : option pystr;
  p_end_published_date : option pystr;
  p_include_text : option (list pystr);
  p_exclude_text : option (list pystr);
  p_summary : option pystr;                (* [{"query": summary_query}] *)
  p_subpages : option (Z * pystr);         (* [subpages] with [subpage_target] *)
  p_extras : option (bool * bool);         (* which of [links], [image_links] are set *)
}.

(** ** Effects: a log of calls to the outside, and exceptions *)

Inductive Event :=
| EvGuard (text : pystr)                          (* client.chat.completions.create *)
| EvCrawl (url : pystr) (filter : option pystr)   (* crawler.arun *)
| EvExa (params : SearchParams)                   (* exa.search_and_contents *)
| EvAgentRun (prompt : pystr)                     (* research_agent.run_sync *)
| EvPrint (line : pystr).                         (* print *)

Inductive Result (A : Type) :=
| Ok (a : A)
| Raise (e : exn).
Arguments Ok {A} a.
Arguments Raise {A} e.

(** A computation yields a value or an exception, and the events it
    emitted, oldest first. *)
Definition M (A : Type) : Type := Result A * list Event.

Definition ret {A} (a : A) : M A := (Ok a, []).

Definition bind {A B} (m : M A) (k : A → M B) : M B :=
  match m with
  | (Ok a, t1) => let '(r, t2) := k a in (r, t1 ++ t2)
  | (Raise e, t1) => (Raise e, t1)
  end.

Definition raise {A} (c : exn_class) (msg : pystr) : M A := (Raise (Exn c msg), []).

(** A call to a service: the event is logged, the oracle's answer is the
    outcome. *)
Definition call {A} (ev : Event) (answer : Result A) : M A := (answer, [ev]).

(** [try: m  except Exception as e: h e] *)
Definition try_except {A} (m : M A) (h : exn → M A) : M A :=
  match m with
  | (Ok a, t1) => (Ok a, t1)
  | (Raise e, t1) => let '(r, t2) := h e in (r, t1 ++ t2)
  end.

(** An expression that may raise and calls nothing. *)
Definition lift {A} (r : Result A) : M A := (r, []).

Definition value {A} (m : M A) : Result A := m.1.
Definition events {A} (m : M A) : list Event := m.2.

Declare Scope py_scope.
Delimit Scope py_scope with py.
Notation "x <- c ;; k" := (bind c (λ x, k))
  (at level 100, c at next level, right associativity) : py_scope.
Local Open Scope py_scope.

Definition print (line : pystr) : M unit := call (EvPrint line) (Ok tt).

(** The answers of the services to one thread of control. *)
Record Env := mkEnv {
  (** [client.chat.completions.create(...).choices[0].message.content] *)
  chat_completions_create : pystr → Result pystr;
  (** [crawler.arun(url, config)], the content filter being part of the
      configuration *)
  crawler_arun : pystr → option pystr → Result CrawlResult;
  (** [exa.search_and_contents] applied to the parameters, as [.results] *)
  exa_search_and_contents : SearchParams → Result (list RawResult);
  (** [research_agent.run_sync(prompt).output] *)
  agent_run_sync : pystr → Result pystr;
  (** [os.getenv(name)] *)
  getenv : pystr → option pystr;
}.

(** [asyncio.gather] with [return_exceptions=True]: every task runs to
    its own end, and its value or its exception is collected at the
    task's position.  The events of the tasks are logged task after task;
    no statement below depends on how they interleave. *)
Definition attempt {A} (t : M A) : M (Result A) := (Ok t.1, t.2).

Fixpoint gather {A} (tasks : list (M A)) : M (list (Result A)) :=
  match tasks with
  | [] => ret []
  | t :: ts => r <- attempt t ;; rs <- gather ts ;; ret (r :: rs)
  end.

(** ** Library code

    [re.sub], [re.match], [re.search] and the parser behind [float(s)] are
    library code; the program is modelled over arbitrary ones.  Patterns
    are the source's literals. *)
Record PyLib := mkPyLib {
  (** [re.sub(pattern, repl, s)] *)
  re_sub : pystr → pystr → pystr → pystr;
  (** [re.match(pattern, s, re.IGNORECASE)] is not [None] *)
  re_match_ignorecase : pystr → pystr → bool;
  (** [re.search(pattern, s, re.IGNORECASE)], as [group(1)] of the match *)
  re_search_ignorecase_group1 : pystr → pystr → option pystr;
  (** the built-in [float(s)]: a value, or a [ValueError] *)
  py_float : pystr → Result pyfloat;
}.

(** ** src/search/crawler.py *)
Module Crawler.
Section WithLibrary.
Variable lib : PyLib.

Definition llama_guard (env : Env) (text : pystr) : M pyfloat :=
  content <- call (EvGuard text) (chat_completions_create env text) ;;
  lift (py_float lib content).

Definition skip_patterns : list pystr :=
  [ py "^(Menu|Navigation|Skip to|Cookie|Privacy|Terms|Subscribe|Sign up|Log in).*";
    py "^\d+$";
    py "^[|" ++ [8226; 183; 8594; 8592; 8593; 8595]%N ++ py "\-\s]+$";
    py "^(Share|Tweet|Facebook|LinkedIn|Print)$";
    py "^Copyright.*\d{4}.*" ].

(** The loop over [lines] of [_clean_content]. *)
Fixpoint clean_lines (lines : list pystr) : list pystr :=
  match lines with
  | [] => []
  | line :: rest =>
      let line := strip line in
      if negb (truthy line) then clean_lines rest
      else if existsb (λ pattern, re_match_ignorecase lib pattern line) skip_patterns
      then clean_lines rest
      else if (10 <? length line)%nat then line :: clean_lines rest
      else clean_lines rest
  end.

Definition _clean_content (content : pystr) : pystr :=
  if negb (truthy content) then []
  else
    let content := re_sub lib (py "\n\s*\n\s*\n") [newline; newline] content in
    let content := re_sub lib (py "\s+") (py " ") content in
    let lines := split_on newline content in
    strip (join [newline] (clean_lines lines)).

Definition _extract_title (html : pystr) : option pystr :=
  match re_search_ignorecase_group1 lib (py "<title[^>]*>([^<]+)</title>") html with
  | Some g => Some (strip g)
  | None => None
  end.

(** The text the extractor cleans: [markdown_v2.raw_markdown] when there
    is one, otherwise [markdown], otherwise the empty string. *)
Definition page_content (result : CrawlResult) : pystr :=
  match cr_markdown_v2 result with
  | Some {| raw_markdown := Some md |} => md
  | _ => default [] (cr_markdown result)
  end.

Definition extract_content (env : Env) (url : pystr)
    (content_filter : option pystr) : M ExtractionResult :=
  try_except
    (let filter_strategy :=
       if truthy_opt content_filter then content_filter else None in
     result <- call (EvCrawl url filter_strategy)
                    (crawler_arun env url filter_strategy) ;;
     if negb (cr_success result) then
       ret (mkExtractionResult url false None None
              (Some (py "Failed to fetch content from URL")))
     else
       let content := page_content result in
       let cleaned_content := _clean_content content in
       let title := _extract_title (default [] (cr_html result)) in
       guard_result <- llama_guard env cleaned_content ;;
       if float_gt guard_result f0_6 then
         ret (mkExtractionResult url true (Some cleaned_content) title None)
       else
         ret (mkExtractionResult url false None None
                (Some (py "Content blocked by Llama Guard"))))
    (λ e, ret (mkExtractionResult url false None None (Some (exn_msg e)))).

Definition bounded_extract (env : Env) (content_filter : option pystr)
    (url : pystr) : M (pystr * ExtractionResult) :=
  result <- extract_content env url content_filter ;;
  ret (url, result).

(** The loop of [extract_multiple] over the gathered results. *)
Fixpoint process_results (results : list (Result (pystr * ExtractionResult)))
    (extraction_results : gmap pystr ExtractionResult)
    : gmap pystr ExtractionResult :=
  match results with
  | [] => extraction_results
  | Raise _ :: rest => process_results rest extraction_results
  | Ok (url, extraction_result) :: rest =>
      process_results rest (<[url := extraction_result]> extraction_results)
  end.

(** [envs i] is what the services answer to the task at position [i]
    of the fan-out. *)
Definition extract_multiple (envs : nat → Env) (urls : list pystr)
    (max_concurrent : Z) (content_filter : option pystr)
    : M (gmap pystr ExtractionResult) :=
  if negb (truthy urls) then ret ∅
  else
    results <- gather (imap (λ i url, bounded_extract (envs i) content_filter url) urls) ;;
    ret (process_results results ∅).

(** [extract_web_content]: one result for a [str], a mapping for a
    list.  [env] answers the single extraction, [envs] the fan-out. *)
Definition extract_web_content (env : Env) (envs : nat → Env)
    (urls : pystr + list pystr) (content_filter : option pystr)
    : M (ExtractionResult + gmap pystr ExtractionResult) :=
  match urls with
  | inl url => r <- extract_content env url content_filter ;; ret (inl r)
  | inr urls => m <- extract_multiple envs urls 10 content_filter ;; ret (inr m)
  end.

End WithLibrary.
End Crawler.

(** ** src/search/exa.py *)
Module Exa.

(** The keyword arguments of [ExaSearchTool.search]. *)
Record SearchArgs := mkSearchArgs {
  search_type : pystr;
  category : option pystr;
  num_results : Z;
  include_domains : option (list pystr);
  exclude_domains : option (list pystr);
  start_crawl_date : option pystr;
  end_crawl_date : option pystr;
  start_published_date : option pystr;
  end_published_date : option pystr;
  include_text : option (list pystr);
  exclude_text : option (list pystr);
  include_contents : bool;
  summary_query : option pystr;
  subpages : Z;
  subpage_target : pystr;
  include_links : bool;
  include_image_links : bool;
}.

(** The defaults of the signature. *)
Definition default_args : SearchArgs :=
  {| search_type := py "auto"; category := None; num_results := 5;
     include_domains := None; exclude_domains := None;
     start_crawl_date := None; end_crawl_date := None;
     start_published_date := None; end_published_date := None;
     include_text := None; exclude_text := None;
     include_contents := true; summary_query := None;
     subpages := 0; subpage_target := py "sources";
     include_links := false; include_image_links := false |}.

Record ExaSearchTool := mkExaSearchTool { api_key : pystr }.

(** [ExaSearchTool.__init__] *)
Definition ExaSearchTool_init (env : Env) (key : option pystr) : M ExaSearchTool :=
  let api_key := if truthy_opt key then key else getenv env (py "EXA_API_KEY") in
  if negb (truthy_opt api_key) then
    raise ExaSearchException
      (py "EXA API key must be provided or set in EXA_API_KEY environment variable")
  else ret (mkExaSearchTool (default [] api_key)).

(** [x if x else None] for a key that is set only when [x] is truthy. *)
Definition when_truthy {A} (o : option (list A)) : option (list A) :=
  if truthy_opt o then o else None.

Definition search_params (query : pystr) (a : SearchArgs) : SearchParams :=
  {| p_query := strip query;
     p_type := search_type a;
     p_num_results := num_results a;
     p_text := include_contents a;
     p_category := when_truthy (category a);
     p_include_domains := when_truthy (include_domains a);
     p_exclude_domains := when_truthy (exclude_domains a);
     p_start_crawl_date := when_truthy (start_crawl_date a);
     p_end_crawl_date := when_truthy (end_crawl_date a);
     p_start_published_date := when_truthy (start_published_date a);
     p_end_published_date := when_truthy (end_published_date a);
     p_include_text := when_truthy (include_text a);
     p_exclude_text := when_truthy (exclude_text a);
     p_summary := when_truthy (summary_query a);
     p_subpages :=
       if 0 <? subpages a then Some (subpages a, subpage_target a) else None;
     p_extras :=
       if include_links a || include_image_links a
       then Some (include_links a, include_image_links a) else None |}.

Definition search_result_of (result : RawResult) : SearchResult :=
  {| sr_title := if truthy_opt (raw_title result)
                 then default [] (raw_title result) else py "No title";
     sr_url := raw_url result;
     sr_published_date := raw_published_date result;
     sr_author := raw_author result;
     sr_score := match raw_score result with
                 | Some f => if truthy_float f then f else f0_0
                 | None => f0_0
                 end;
     sr_text := raw_text result;
     sr_summary := raw_summary result |}.

Definition search_types : list pystr := [py "auto"; py "neural"; py "keyword"].

(** [x in xs] *)
Definition py_in (x : pystr) (xs : list pystr) : bool :=
  existsb (λ y, bool_decide (x = y)) xs.

(** [ExaSearchTool.search] *)
Definition search (tool : ExaSearchTool) (env : Env) (query : pystr)
    (a : SearchArgs) : M (list SearchResult) :=
  if negb (truthy query) || negb (truthy (strip query)) then
    raise ExaSearchException (py "Query cannot be empty")
  else if (num_results a <? 1) || (100 <? num_results a) then
    raise ExaSearchException (py "num_results must be between 1 and 100")
  else if negb (py_in (search_type a) search_types) then
    raise ExaSearchException (py "search_type must be 'auto', 'neural', or 'keyword'")
  else if (subpages a <? 0) || (5 <? subpages a) then
    raise ExaSearchException (py "subpages must be between 0 and 5")
  else
    try_except
      (let search_params := search_params query a in
       raw_results <- call (EvExa search_params)
                           (exa_search_and_contents env search_params) ;;
       ret (search_result_of <$> raw_results))
      (λ e, raise ExaSearchException (py "EXA search failed: " ++ exn_msg e)).

Definition bounded_search (tool : ExaSearchTool) (a : SearchArgs) (env : Env)
    (query : pystr) : M (list SearchResult) :=
  search tool env query a.

(** The loop of [multi_search] over the gathered results.  Extending a
    list by an exception object that is not an [ExaSearchException] is a
    [TypeError]. *)
Fixpoint collect (results : list (Result (list SearchResult)))
    (processed_results : list SearchResult) : M (list SearchResult) :=
  match results with
  | [] => ret processed_results
  | Raise e :: rest =>
      if bool_decide (exn_cls e = ExaSearchException)
      then collect rest (processed_results ++ [])
      else raise TypeError (py "object is not iterable")
  | Ok result :: rest => collect rest (processed_results ++ result)
  end.

(** [ExaSearchTool.multi_search]; [envs i] answers the task at position
    [i]. *)
Definition multi_search (tool : ExaSearchTool) (envs : nat → Env)
    (queries : pystr + list pystr) (max_concurrent : Z) (a : SearchArgs)
    : M (list SearchResult) :=
  let falsy := match queries with inl q => negb (truthy q) | inr qs => negb (truthy qs) end in
  if falsy then ret []
  else
    let queries := match queries with inl q => [q] | inr qs => qs end in
    results <- gather (imap (λ i query, bounded_search tool a (envs i) query) queries) ;;
    collect results [].

(** [xs[0]] *)
Definition index0 {A} (xs : list A) : M A :=
  match xs with
  | [] => raise IndexError (py "list index out of range")
  | x :: _ => ret x
  end.

(** [exa_search]; [env] answers the caller's own thread, [envs] the
    fan-out. *)
Definition exa_search (env : Env) (envs : nat → Env)
    (query : pystr + list pystr) (a : SearchArgs) : M (list SearchResult) :=
  tool <- ExaSearchTool_init env None ;;
  match query with
  | inr (q :: qs) => multi_search tool envs query 10 a
  | _ =>
      single_query <- match query with inr qs => index0 qs | inl q => ret q end ;;
      search tool env single_query a
  end.

End Exa.

(** ** The tool of src/agent/agent.py *)
Module Agent.
Section WithLibrary.
Variable lib : PyLib.

(** [search]: [searches] answers the fan-out of queries, [pages] the
    fan-out of extractions. *)
Definition search (env : Env) (searches pages : nat → Env)
    (query : pystr + list pystr) (num_results : Z)
    : M (ExtractionResult + gmap pystr ExtractionResult) :=
  let query_list := match query with inl q => [q] | inr qs => qs end in
  results <- Exa.exa_search env searches (inr query_list)
               {| Exa.search_type := Exa.search_type Exa.default_args;
                  Exa.category := None; Exa.num_results := num_results;
                  Exa.include_domains := None; Exa.exclude_domains := None;
                  Exa.start_crawl_date := None; Exa.end_crawl_date := None;
                  Exa.start_published_date := None; Exa.end_published_date := None;
                  Exa.include_text := None; Exa.exclude_text := None;
                  Exa.include_contents := true; Exa.summary_query := None;
                  Exa.subpages := 0; Exa.subpage_target := py "sources";
                  Exa.include_links := false; Exa.include_image_links := false |} ;;
  let urls := sr_url <$> results in
  Crawler.extract_web_content lib env pages (inr urls) (Some (py "safety features")).

End WithLibrary.
End Agent.

(** ** src/main.py *)
Module Main.
Section WithLibrary.
Variable lib : PyLib.

Definition llama_guard (env : Env) (text : pystr) : M pyfloat :=
  content <- call (EvGuard text) (chat_completions_create env text) ;;
  lift (py_float lib content).

(** The script after [prompt = input(...)].  Its value is the status
    the script ends with when no exception escapes: [exit(1)] is the
    last statement of its branch, the other branch runs off the end of
    the file. *)
Definition main (env : Env) (prompt : pystr) : M Z :=
  guard <- llama_guard env prompt ;;
  if float_gt guard f0_6 then
    _ <- print (py "Prompt is not safe. Exiting.") ;;
    ret 1
  else
    output <- call (EvAgentRun prompt) (agent_run_sync env prompt) ;;
    _ <- print (py "model answer: " ++ output) ;;
    ret 0.

(** The exit status of the process: an uncaught exception ends it with
    status 1. *)
Definition exit_status (env : Env) (prompt : pystr) : Z :=
  match value (main env prompt) with
  | Ok status => status
  | Raise _ => 1
  end.

End WithLibrary.
End Main.

(** ** src/utils/logger.py *)
Module Logger.

(** An absolute path: its components below the root, outermost first. *)
Definition path : Type := list pystr.

(** [os.path.dirname]: the parent; the root is its own parent. *)
Definition dirname (p : path) : path := removelast p.

(** [os.path.join(p, name)] *)
Definition path_join (p : path) (name : pystr) : path := p ++ [name].

(** The loop of [get_repo_root], by recursion on the components of
    [current] from the innermost outwards: [climb isdir fallback (rev current)]
    is what the loop returns when it is entered with [current];
    [climb_loop] below is the body of the loop. *)
Fixpoint climb (isdir : path → bool) (fallback : path) (rcurrent : list pystr) : path :=
  match rcurrent with
  | [] => if isdir (path_join [] (py "logs")) then [] else fallback
  | _ :: rparent =>
      if isdir (path_join (rev rparent) (py "logs")) then rev rparent
      else climb isdir fallback rparent
  end.

(** [get_repo_root], for the absolute path [file] of the module and the
    directories [isdir] of the file system. *)
Definition get_repo_root (isdir : path → bool) (file : path) : path :=
  climb isdir (dirname file) (rev file).

Inductive Handler :=
| FileHandler (log_file : path) (formatter : pystr)   (* mode "a", utf-8 *)
| StreamHandler (formatter : pystr).

(** What the program reads and sets of a [logging.Logger]. *)
Record LoggerState := mkLoggerState {
  level : Z;
  handlers : list Handler;
  propagate : bool;
}.

(** The level [logging.INFO]. *)
Definition INFO : Z := 20.

(** A logger as [logging.getLogger] creates it: level [NOTSET], no
    handler, propagating. *)
Definition new_logger : LoggerState := mkLoggerState 0 [] true.

(** What [get_logger] does to the file system. *)
Inductive FsEvent :=
| Makedirs (dir : path)            (* os.makedirs(dir, exist_ok=True) *)
| OpenAppend (log_file : path).    (* logging.FileHandler(log_file, mode="a") *)

Definition formatter : pystr := py "%(asctime)s - %(levelname)s - %(message)s".

(** [get_logger], called from the module named [name] (what
    [get_caller_file] finds), with the loggers [loggers] that
    [logging.getLogger] knows by name.  [file] is the absolute path of
    logger.py.  The calls to the file system are taken to succeed; they
    are returned beside the loggers. *)
Definition get_logger (environ : pystr → option pystr) (isdir : path → bool)
    (file : path) (name : pystr) (loggers : gmap pystr LoggerState)
    : gmap pystr LoggerState * list FsEvent :=
  let logger := default new_logger (loggers !! name) in
  let logger := mkLoggerState INFO (handlers logger) (propagate logger) in
  if negb (truthy (handlers logger)) then
    let dev := bool_decide (environ (py "CURRENT_ENV") = Some (py "DEV")) in
    let repo_root := get_repo_root isdir file in
    let logs_dir := path_join repo_root (py "logs") in
    let log_file := path_join logs_dir (name ++ py ".log") in
    let file_handlers := if dev then [FileHandler log_file formatter] else [] in
    let effects := if dev then [Makedirs logs_dir; OpenAppend log_file] else [] in
    (<[name := mkLoggerState INFO
                 (handlers logger ++ file_handlers ++ [StreamHandler formatter])
                 false]> loggers,
     effects)
  else (<[name := logger]> loggers, []).

End Logger.

(** ** Vocabulary of the properties *)

(** The ways in which one extraction fails: the fetch raises, the fetch
    comes back unsuccessful, the moderation call raises, or the page
    takes the blocking branch of the extractor's gate, which in
    [extract_content] is the branch of a score that is not above 0.6. *)
Inductive extraction_fails (lib : PyLib) (env : Env) (url : pystr)
    (content_filter : option pystr) : Prop :=
| fails_fetch_raises e :
    crawler_arun env url (if truthy_opt content_filter then content_filter else None)
      = Raise e →
    extraction_fails lib env url content_filter
| fails_fetch_unsuccessful result :
    crawler_arun env url (if truthy_opt content_filter then content_filter else None)
      = Ok result →
    cr_success result = false →
    extraction_fails lib env url content_filter
| fails_guard_raises result e :
    crawler_arun env url (if truthy_opt content_filter then content_filter else None)
      = Ok result →
    cr_success result = true →
    value (Crawler.llama_guard lib env
             (Crawler._clean_content lib (Crawler.page_content result))) = Raise e →
    extraction_fails lib env url content_filter
| fails_blocked result score :
    crawler_arun env url (if truthy_opt content_filter then content_filter else None)
      = Ok result →
    cr_success result = true →
    value (Crawler.llama_guard lib env
             (Crawler._clean_content lib (Crawler.page_content result))) = Ok score →
    float_gt score f0_6 = false →
    extraction_fails lib env url content_filter.

(** The prompt gate lets a prompt through when the agent is run on it. *)
Definition prompt_admitted (lib : PyLib) (env : Env) (prompt : pystr) : Prop :=
  EvAgentRun prompt ∈ events (Main.main lib env prompt).

(** The page gate lets a page through when its extraction is a success. *)
Definition page_admitted (lib : PyLib) (env : Env) (url : pystr)
    (content_filter : option pystr) : Prop :=
  ∃ r, value (Crawler.extract_content lib env url content_filter) = Ok r
       ∧ er_success r = true.

(** An event that reaches a hosted service other than the moderation
    model: the agent, the search API or the crawler. *)
Definition is_agent_activity (ev : Event) : bool :=
  match ev with
  | EvAgentRun _ | EvExa _ | EvCrawl _ _ => true
  | EvGuard _ | EvPrint _ => false
  end.

(** ** Sample answers

    Concrete library functions and service answers on which the
    properties are exercised.  The library functions agree with Python on
    the texts used with them: texts whose only whitespace is single
    spaces and which match none of the skip patterns, and the numerals
    ["0.9"] and ["0.1"]. *)
Module Sample.

Definition f0_9 : pyfloat := S754_finite false 8106479329266893 (-53).
Definition f0_1 : pyfloat := S754_finite false 7205759403792794 (-56).

Definition lib : PyLib :=
  {| re_sub := λ _ _ s, s;
     re_match_ignorecase := λ _ _, false;
     re_search_ignorecase_group1 := λ _ html,
       if bool_decide (html = py "<title>Example</title>")
       then Some (py "Example") else None;
     py_float := λ s,
       if bool_decide (s = py "0.9") then Ok f0_9
       else if bool_decide (s = py "0.1") then Ok f0_1
       else Raise (Exn ValueError (py "could not convert string to float")) |}.

Definition page_text : pystr := py "Rocq is a proof assistant.".

Definition page : CrawlResult :=
  {| cr_success := true;
     cr_markdown_v2 := None;
     cr_markdown := Some page_text;
     cr_html := Some (py "<title>Example</title>") |}.

Definition hit (url : pystr) : RawResult :=
  {| raw_title := Some (py "Example"); raw_url := url;
     raw_published_date := None; raw_author := None;
     raw_score := Some f0_9; raw_text := None; raw_summary := None |}.

(** A world in which the moderation model answers [score], the crawler
    answers [fetched], the search API answers [found] and the process
    environment holds [key] under every name. *)
Definition env_with (score : pystr) (fetched : Result CrawlResult)
    (found : Result (list RawResult)) (key : option pystr) : Env :=
  {| chat_completions_create := λ _, Ok score;
     crawler_arun := λ _ _, fetched;
     exa_search_and_contents := λ _, found;
     agent_run_sync := λ _, Ok (py "answer");
     getenv := λ _, key |}.

Definition url_a : pystr := py "https://a.example/".
Definition url_b : pystr := py "https://b.example/".
Definition url_c : pystr := py "https://c.example/".

(** Every page is fetched and scored 0.9. *)
Definition env_high : Env :=
  env_with (py "0.9") (Ok page) (Ok [hit url_a]) (Some (py "key")).

(** Every page is fetched and scored 0.1. *)
Definition env_low : Env :=
  env_with (py "0.1") (Ok page) (Ok [hit url_a]) (Some (py "key")).

(** The crawler is unreachable. *)
Definition env_down : Env :=
  env_with (py "0.9") (Raise (Exn OtherError (py "connection refused")))
    (Raise (Exn OtherError (py "connection refused"))) (Some (py "key")).

(** No API key is configured. *)
Definition env_no_key : Env :=
  env_with (py "0.9") (Ok page) (Ok [hit url_a]) None.

(** Every task is answered by [env_high]. *)
Definition envs_high (i : nat) : Env := env_high.

(** The task at position 1 finds its service unreachable. *)
Definition envs_one_down (i : nat) : Env :=
  if (i =? 1)%nat then env_down else env_high.

Definition urls : list pystr := [url_a; url_b; url_c].

Definition queries : list pystr := [py "rocq"; py "coq"; py "lean"].

Definition tool : Exa.ExaSearchTool := Exa.mkExaSearchTool (py "key").

(** The result of a successful extraction of [page] at [url]. *)
Definition extracted (url : pystr) : ExtractionResult :=
  mkExtractionResult url true (Some page_text) (Some (py "Example")) None.

(** The result of an extraction that found the crawler unreachable. *)
Definition unreachable (url : pystr) : ExtractionResult :=
  mkExtractionResult url false None None (Some (py "connection refused")).

(** The arguments of a search that asks for [n] results. *)
Definition asking_for (n : Z) : Exa.SearchArgs :=
  {| Exa.search_type := py "auto"; Exa.category := None; Exa.num_results := n;
     Exa.include_domains := None; Exa.exclude_domains := None;
     Exa.start_crawl_date := None; Exa.end_crawl_date := None;
     Exa.start_published_date := None; Exa.end_published_date := None;
     Exa.include_text := None; Exa.exclude_text := None;
     Exa.include_contents := true; Exa.summary_query := None;
     Exa.subpages := 0; Exa.subpage_target := py "sources";
     Exa.include_links := false; Exa.include_image_links := false |}.

End Sample.

(** ** Readings of the log *)

(** The URL of a call to the crawler. *)
Definition crawled_url (ev : Event) : option pystr :=
  match ev with EvCrawl url _ => Some url | _ => None end.

(** The content filter of a call to the crawler. *)
Definition crawl_filter (ev : Event) : option (option pystr) :=
  match ev with EvCrawl _ filter => Some filter | _ => None end.

(** The parameters of a request to the search API. *)
Definition requested (ev : Event) : option SearchParams :=
  match ev with EvExa params => Some params | _ => None end.

(** ** Further sample answers *)
Module Cases.

(** The task at position 0 finds its service unreachable. *)
Definition envs_first_down (i : nat) : Env :=
  if (i =? 0)%nat then Sample.env_down else Sample.env_high.

(** The same URL at the first and at the last position. *)
Definition urls_twice : list pystr := [Sample.url_a; Sample.url_b; Sample.url_a].

(** A module three directories below the root. *)
Definition logger_file : Logger.path :=
  [py "srv"; py "app"; py "src"; py "utils"; py "logger.py"].

(** A file system whose only [logs] directory is [/srv/app/logs]. *)
Definition isdir_app (p : Logger.path) : bool :=
  bool_decide (p = [py "srv"; py "app"; py "logs"]).

(** A process environment that holds [CURRENT_ENV=DEV] and nothing else. *)
Definition environ_dev (name : pystr) : option pystr :=
  if bool_decide (name = py "CURRENT_ENV") then Some (py "DEV") else None.

(** The moderation model is unreachable. *)
Definition env_guard_down : Env :=
  {| chat_completions_create := λ _, Raise (Exn OtherError (py "connection refused"));
     crawler_arun := λ _ _, Ok Sample.page;
     exa_search_and_contents := λ _, Ok [Sample.hit Sample.url_a];
     agent_run_sync := λ _, Ok (py "answer");
     getenv := λ _, Some (py "key") |}.

(** The search API answers every request with two hits. *)
Definition env_two_hits : Env :=
  Sample.env_with (py "0.9") (Ok Sample.page)
    (Ok [Sample.hit Sample.url_a; Sample.hit Sample.url_b]) (Some (py "key")).

Definition envs_two_hits (i : nat) : Env := env_two_hits.

End Cases.

(** * Properties *)

(** ** The effect layer *)

Create HintDb effects discriminated.
#[global] Hint Unfold try_except bind call lift print ret raise value events : effects.

(** Lay a computation open down to the answers of the services. *)
Ltac run_effects := autounfold with effects.

Lemma value_ret {A} (a : A) : value (ret a) = Ok a.
Proof. reflexivity. Qed.

Lemma value_bind_ok {A B} (m : M A) (k : A → M B) (a : A) :
  value m = Ok a → value (bind m k) = value (k a).
Proof.
  destruct m as [r t]; simpl; intros ->. unfold bind.
  destruct (k a); reflexivity.
Qed.

Lemma value_bind_raise {A B} (m : M A) (k : A → M B) (e : exn) :
  value m = Raise e → value (bind m k) = Raise e.
Proof. destruct m as [r t]; simpl; intros ->. reflexivity. Qed.

Lemma events_bind_ok {A B} (m : M A) (k : A → M B) (a : A) :
  value m = Ok a → events (bind m k) = events m ++ events (k a).
Proof.
  destruct m as [r t]; simpl; intros ->. unfold bind.
  destruct (k a); reflexivity.
Qed.

(** [gather] never raises: it hands back every task's own outcome, in
    the order of the tasks. *)
Lemma gather_value {A} (tasks : list (M A)) :
  value (gather tasks) = Ok (value <$> tasks).
Proof.
  induction tasks as [|t ts IH]; [reflexivity|].
  simpl. destruct t as [r tr]. unfold attempt, bind; simpl.
  destruct (gather ts) as [rs trs]. simpl in IH. subst rs. reflexivity.
Qed.

Lemma gather_events {A} (tasks : list (M A)) :
  events (gather tasks) = concat (events <$> tasks).
Proof.
  induction tasks as [|t ts IH]; [reflexivity|].
  simpl. destruct t as [r tr]. unfold attempt, bind; simpl.
  pose proof (gather_value ts) as Hv.
  destruct (gather ts) as [rs trs]. simpl in *. subst.
  by rewrite app_nil_r.
Qed.

(** ** The page extractor *)
Section CrawlerFacts.
Variable lib : PyLib.

#[local] Abbreviation extract_content := (Crawler.extract_content lib).
#[local] Abbreviation extract_multiple := (Crawler.extract_multiple lib).
#[local] Abbreviation bounded_extract := (Crawler.bounded_extract lib).
#[local] Abbreviation cleaned result := (Crawler._clean_content lib (Crawler.page_content result)).

(** The filter the crawler is configured with. *)
#[local] Abbreviation filter_of f := (if truthy_opt f then f else None).

(** [extract_content] always returns: its [except] clause turns every
    exception of its body into a result.  The result is read off the
    answers of the two services. *)
Lemma extract_content_value env url f :
  value (extract_content env url f) =
  Ok match crawler_arun env url (filter_of f) with
     | Raise e => mkExtractionResult url false None None (Some (exn_msg e))
     | Ok result =>
         if negb (cr_success result) then
           mkExtractionResult url false None None
             (Some (py "Failed to fetch content from URL"))
         else
           match value (Crawler.llama_guard lib env (cleaned result)) with
           | Raise e => mkExtractionResult url false None None (Some (exn_msg e))
           | Ok score =>
               if float_gt score f0_6 then
                 mkExtractionResult url true (Some (cleaned result))
                   (Crawler._extract_title lib (default [] (cr_html result))) None
               else
                 mkExtractionResult url false None None
                   (Some (py "Content blocked by Llama Guard"))
           end
     end.
Proof.
  unfold Crawler.extract_content, Crawler.llama_guard. run_effects.
  destruct (crawler_arun env url (filter_of f)) as [result|e]; simpl; [|reflexivity].
  destruct (cr_success result); simpl; [|reflexivity].
  destruct (chat_completions_create env (cleaned result)) as [c|e]; simpl; [|reflexivity].
  destruct (py_float lib c) as [score|e]; simpl; [|reflexivity].
  destruct (float_gt score f0_6); reflexivity.
Qed.

Lemma extract_content_returns env url f :
  ∃ r, value (extract_content env url f) = Ok r.
Proof. rewrite extract_content_value. eauto. Qed.

Lemma extract_content_url env url f r :
  value (extract_content env url f) = Ok r → er_url r = url.
Proof.
  rewrite extract_content_value. intros [= <-].
  repeat case_match; reflexivity.
Qed.

Lemma bounded_extract_value env f url r :
  value (extract_content env url f) = Ok r →
  value (bounded_extract env f url) = Ok (url, r).
Proof.
  intros H. unfold Crawler.bounded_extract.
  by rewrite (value_bind_ok _ _ r H).
Qed.

(** The outcomes [gather] collects for a list of URLs. *)
#[local] Abbreviation gathered envs f urls :=
  (value <$> imap (λ i url, bounded_extract (envs i) f url) urls).

Lemma extract_multiple_value envs urls mc f :
  value (extract_multiple envs urls mc f) =
  Ok (Crawler.process_results (gathered envs f urls) ∅).
Proof.
  unfold Crawler.extract_multiple.
  destruct urls as [|u urls]; [reflexivity|].
  cbn [truthy negb].
  by rewrite (value_bind_ok _ _ _ (gather_value _)).
Qed.

Lemma process_results_snoc rs x acc :
  Crawler.process_results (rs ++ [x]) acc =
  match x with
  | Ok (url, r) => <[url := r]> (Crawler.process_results rs acc)
  | Raise _ => Crawler.process_results rs acc
  end.
Proof.
  revert acc. induction rs as [|[[u r]|e] rs IH]; intros acc; simpl.
  - destruct x as [[u r]|e]; reflexivity.
  - apply IH.
  - apply IH.
Qed.

Lemma gathered_snoc envs f urls u r :
  value (extract_content (envs (length urls)) u f) = Ok r →
  gathered envs f (urls ++ [u]) = gathered envs f urls ++ [Ok (u, r)].
Proof.
  intros H. rewrite imap_app, fmap_app. f_equal. simpl.
  rewrite Nat.add_0_r. by rewrite (bounded_extract_value _ _ _ _ H).
Qed.

(** Last write wins: the entry under a key is what [extract_content]
    returned for the last position of the list that holds this key. *)
Lemma process_gathered_lookup envs f urls k r :
  Crawler.process_results (gathered envs f urls) ∅ !! k = Some r →
  ∃ i, urls !! i = Some k
       ∧ value (extract_content (envs i) k f) = Ok r
       ∧ ∀ j, (i < j)%nat → urls !! j ≠ Some k.
Proof.
  revert r. induction urls as [|u urls IH] using rev_ind; intros r.
  - simpl. by rewrite lookup_empty.
  - destruct (extract_content_returns (envs (length urls)) u f) as [ru Hru].
    rewrite (gathered_snoc _ _ _ _ _ Hru), process_results_snoc.
    destruct (decide (u = k)) as [->|Hne].
    + rewrite lookup_insert_eq. intros [= <-].
      exists (length urls). split; [by rewrite list_lookup_middle|].
      split; [done|]. intros j Hj.
      rewrite lookup_ge_None_2; [done|]. rewrite length_app; simpl; lia.
    + rewrite lookup_insert_ne by done. intros H.
      destruct (IH r H) as (i & Hi & Hv & Hlast).
      exists i. split; [by apply lookup_app_l_Some|]. split; [done|].
      intros j Hj Hjk.
      apply lookup_app_Some in Hjk as [Hjk|[_ Hjk]].
      * by apply (Hlast j).
      * destruct (j - length urls)%nat; simpl in Hjk; [congruence|].
        by rewrite lookup_nil in Hjk.
Qed.

Lemma process_gathered_is_Some envs f urls k :
  k ∈ urls → is_Some (Crawler.process_results (gathered envs f urls) ∅ !! k).
Proof.
  induction urls as [|u urls IH] using rev_ind; intros Hin.
  - by apply elem_of_nil in Hin.
  - destruct (extract_content_returns (envs (length urls)) u f) as [ru Hru].
    rewrite (gathered_snoc _ _ _ _ _ Hru), process_results_snoc.
    destruct (decide (u = k)) as [->|Hne].
    + rewrite lookup_insert_eq. eauto.
    + rewrite lookup_insert_ne by done. apply IH.
      apply elem_of_app in Hin as [Hin|Hin]; [done|].
      apply list_elem_of_singleton in Hin. congruence.
Qed.


Lemma process_results_skips_exception rs1 rs2 e acc :
  Crawler.process_results (rs1 ++ Raise e :: rs2) acc
  = Crawler.process_results (rs1 ++ rs2) acc.
Proof.
  revert acc. induction rs1 as [|[[u r]|e'] rs1 IH]; intros acc; simpl; auto.
Qed.

(** The last position of a key in a list is unique. *)
Lemma last_position_unique (urls : list pystr) k i j :
  urls !! i = Some k → (∀ n, (i < n)%nat → urls !! n ≠ Some k) →
  urls !! j = Some k → (∀ n, (j < n)%nat → urls !! n ≠ Some k) →
  i = j.
Proof.
  intros Hi Hil Hj Hjl.
  destruct (Nat.lt_trichotomy i j) as [Hlt|[Heq|Hgt]]; [|done|].
  - by destruct (Hil j Hlt).
  - by destruct (Hjl i Hgt).
Qed.

(** C5: for the empty list of URLs [extract_multiple] returns the empty
    dictionary and emits no event at all, so that no extraction and no
    network call takes place; the same holds when the empty list comes
    in through [extract_web_content]. *)
Theorem extract_multiple_empty env envs mc f :
  extract_multiple envs [] mc f = (Ok ∅, [])
  ∧ Crawler.extract_web_content lib env envs (inr []) f = (Ok (inr ∅), []).
Proof. split; reflexivity. Qed.

(** C7: the result [extract_content] builds carries the URL it was asked
    for; when it is a success it has no error and its content is the
    cleaned text of the fetched page; when it is not, content and title
    are [None] and there is an error message.  Results are values: what
    [extract_multiple] stores under a key is, unchanged, the result
    [extract_content] built for a position of the list holding that
    key. *)
Theorem extraction_result_invariant env envs urls mc f url :
  (∃ r, value (extract_content env url f) = Ok r
        ∧ er_url r = url
        ∧ (er_success r = true →
           er_error r = None
           ∧ ∃ result, crawler_arun env url (filter_of f) = Ok result
                       ∧ er_content r = Some (cleaned result))
        ∧ (er_success r = false →
           er_content r = None ∧ er_title r = None ∧ is_Some (er_error r)))
  ∧ (∃ m, value (extract_multiple envs urls mc f) = Ok m
          ∧ ∀ k r, m !! k = Some r →
                   ∃ i, urls !! i = Some k
                        ∧ value (extract_content (envs i) k f) = Ok r).
Proof.
  split.
  - rewrite extract_content_value. eexists; split; [reflexivity|].
    destruct (crawler_arun env url (filter_of f)) as [result|e]; simpl;
      [destruct (cr_success result); simpl;
       [destruct (value (Crawler.llama_guard lib env (cleaned result)))
          as [score|e]; simpl; [destruct (float_gt score f0_6); simpl|]|]|].
    all: split; [reflexivity|].
    all: split; [intros Hs|intros Hs]; try discriminate Hs.
    all: eauto.
  - rewrite extract_multiple_value. eexists; split; [reflexivity|].
    intros k r Hk.
    destruct (process_gathered_lookup _ _ _ _ _ Hk) as (i & Hi & Hv & _). eauto.
Qed.

Lemma remove_dups_length_le (l : list pystr) :
  (length (remove_dups l) ≤ length l)%nat.
Proof.
  induction l as [|x l IH]; simpl; [lia|].
  case_decide; simpl; lia.
Qed.

(** C10: the mapping [extract_multiple] returns has its keys in the list
    of URLs, every value carries its key as [url], and the keys are
    exactly the distinct URLs of the list, so that duplicates share one
    entry and the mapping has as many entries as the list has distinct
    URLs, which is at most the length of the list. *)
Theorem extract_multiple_keys envs urls mc f :
  ∃ m, value (extract_multiple envs urls mc f) = Ok m
       ∧ (∀ k r, m !! k = Some r → k ∈ urls ∧ er_url r = k)
       ∧ dom m = list_to_set urls
       ∧ size m = length (remove_dups urls)
       ∧ (size m ≤ length urls)%nat.
Proof.
  rewrite extract_multiple_value. eexists; split; [reflexivity|].
  set (m := Crawler.process_results _ _).
  assert (Hkeys : ∀ k r, m !! k = Some r → k ∈ urls ∧ er_url r = k).
  { intros k r Hk.
    destruct (process_gathered_lookup _ _ _ _ _ Hk) as (i & Hi & Hv & _).
    split; [by eapply list_elem_of_lookup_2|by eapply extract_content_url]. }
  assert (Hdom : dom m = list_to_set urls).
  { apply set_eq. intros k. rewrite elem_of_dom, elem_of_list_to_set. split.
    - intros [r Hr]. by destruct (Hkeys k r Hr).
    - apply process_gathered_is_Some. }
  assert (Hsize : size m = length (remove_dups urls)).
  { rewrite <- size_dom, Hdom.
    rewrite <- (size_list_to_set (C:=gset pystr) (remove_dups urls))
      by apply NoDup_remove_dups.
    f_equal. apply set_eq. intros k.
    by rewrite !elem_of_list_to_set, elem_of_remove_dups. }
  split; [exact Hkeys|]. split; [exact Hdom|]. split; [exact Hsize|].
  rewrite Hsize. apply remove_dups_length_le.
Qed.

(** A failed extraction is reported in its own result. *)
Lemma extraction_fails_flagged env url f :
  extraction_fails lib env url f →
  ∃ r, value (extract_content env url f) = Ok r
       ∧ er_url r = url ∧ er_success r = false ∧ is_Some (er_error r).
Proof.
  intros Hf. rewrite extract_content_value. eexists; split; [reflexivity|].
  destruct Hf as [e He|result He Hs|result e He Hs Hg|result score He Hs Hg Hb];
    rewrite He; simpl; try rewrite Hs; simpl; try rewrite Hg; simpl;
    try rewrite Hb; simpl; eauto.
Qed.

(** Entries under keys that the changed task does not write are the same
    in both runs. *)
Lemma extract_multiple_frame envs envs' urls i u f k :
  urls !! i = Some u →
  (∀ j, j ≠ i → envs' j = envs j) →
  k ≠ u →
  Crawler.process_results (gathered envs' f urls) ∅ !! k
  = Crawler.process_results (gathered envs f urls) ∅ !! k.
Proof.
  intros Hi Hagree Hne.
  assert (Hstep : ∀ e1 e2, (∀ j, j ≠ i → e2 j = e1 j) → ∀ r,
            Crawler.process_results (gathered e1 f urls) ∅ !! k = Some r →
            Crawler.process_results (gathered e2 f urls) ∅ !! k = Some r).
  { intros e1 e2 H12 r Hr.
    destruct (process_gathered_lookup _ _ _ _ _ Hr) as (a & Ha & Hva & Hla).
    assert (Hin : k ∈ urls) by by eapply list_elem_of_lookup_2.
    destruct (process_gathered_is_Some e2 f urls k Hin) as [r' Hr'].
    destruct (process_gathered_lookup _ _ _ _ _ Hr') as (b & Hb & Hvb & Hlb).
    assert (a = b) as <- by by eapply last_position_unique.
    assert (a ≠ i) by (intros ->; congruence).
    rewrite H12 in Hvb by done. congruence. }
  destruct (Crawler.process_results (gathered envs f urls) ∅ !! k) as [r|] eqn:Hm.
  - by apply (Hstep envs envs').
  - destruct (Crawler.process_results (gathered envs' f urls) ∅ !! k) as [r'|] eqn:Hm';
      [|done].
    apply (Hstep envs' envs) in Hm'; [congruence|].
    intros j Hj. symmetry. by apply Hagree.
Qed.

(** C4: when the extraction at one position of the list fails (the fetch
    raises or is unsuccessful, the moderation call raises, or the gate
    blocks the page), [extract_multiple] still returns a mapping with an
    entry for every URL of the list; the failed extraction is an
    error-flagged result under its own URL (when no later position holds
    the same URL); and the entry under every other key is what it is in
    a run that differs only in what the services answer to that one
    position.  An exception object among the gathered results is
    skipped without touching the other entries. *)
Theorem extract_multiple_isolates_failure envs envs' urls i u mc f :
  urls !! i = Some u →
  (∀ j, j ≠ i → envs' j = envs j) →
  extraction_fails lib (envs' i) u f →
  ∃ r m m',
    value (extract_content (envs' i) u f) = Ok r
    ∧ er_url r = u ∧ er_success r = false ∧ is_Some (er_error r)
    ∧ value (extract_multiple envs urls mc f) = Ok m
    ∧ value (extract_multiple envs' urls mc f) = Ok m'
    ∧ (∀ k, k ≠ u → m' !! k = m !! k)
    ∧ (∀ k, k ∈ urls → is_Some (m' !! k))
    ∧ ((∀ j, (i < j)%nat → urls !! j ≠ Some u) → m' !! u = Some r)
    ∧ (∀ rs1 rs2 e acc,
         Crawler.process_results (rs1 ++ Raise e :: rs2) acc
         = Crawler.process_results (rs1 ++ rs2) acc).
Proof.
  intros Hi Hagree Hfail.
  destruct (extraction_fails_flagged _ _ _ Hfail) as (r & Hr & Hurl & Hs & He).
  rewrite !extract_multiple_value.
  exists r. eexists. eexists.
  split; [done|]. split; [done|]. split; [done|]. split; [done|].
  split; [reflexivity|]. split; [reflexivity|].
  split; [|split; [|split]].
  - intros k Hk. by eapply extract_multiple_frame.
  - apply process_gathered_is_Some.
  - intros Hlast.
    assert (Hin : u ∈ urls) by by eapply list_elem_of_lookup_2.
    destruct (process_gathered_is_Some envs' f urls u Hin) as [r' Hr'].
    destruct (process_gathered_lookup _ _ _ _ _ Hr') as (b & Hb & Hvb & Hlb).
    assert (i = b) as <- by by eapply last_position_unique.
    congruence.
  - apply process_results_skips_exception.
Qed.

(** C1: a fetched page whose cleaned content the moderation model scores
    above 0.6 comes out of [extract_content] as a successful result that
    carries the content, not as a blocked one. *)
Theorem extract_content_admits_high_score env url f result score :
  crawler_arun env url (filter_of f) = Ok result →
  cr_success result = true →
  value (Crawler.llama_guard lib env (cleaned result)) = Ok score →
  float_gt score f0_6 = true →
  value (extract_content env url f)
  = Ok (mkExtractionResult url true (Some (cleaned result))
          (Crawler._extract_title lib (default [] (cr_html result))) None).
Proof.
  intros He Hs Hg Hgt. rewrite extract_content_value, He. simpl.
  rewrite Hs. simpl. by rewrite Hg, Hgt.
Qed.

End CrawlerFacts.

(** ** The prompt gate and the page gate *)
Section GateFacts.
Variable lib : PyLib.

Lemma llama_guard_same env text :
  Main.llama_guard lib env text = Crawler.llama_guard lib env text.
Proof. reflexivity. Qed.

(** The whole behaviour of the script, read off the answers of the
    moderation model and of the agent. *)
Lemma main_cases env prompt :
  Main.main lib env prompt =
  match value (Main.llama_guard lib env prompt) with
  | Raise e => (Raise e, [EvGuard prompt])
  | Ok score =>
      if float_gt score f0_6 then
        (Ok 1, [EvGuard prompt; EvPrint (py "Prompt is not safe. Exiting.")])
      else
        match agent_run_sync env prompt with
        | Ok output =>
            (Ok 0, [EvGuard prompt; EvAgentRun prompt;
                    EvPrint (py "model answer: " ++ output)])
        | Raise e => (Raise e, [EvGuard prompt; EvAgentRun prompt])
        end
  end.
Proof.
  unfold Main.main, Main.llama_guard. run_effects.
  destruct (chat_completions_create env prompt) as [c|e]; simpl; [|reflexivity].
  destruct (py_float lib c) as [score|e]; simpl; [|reflexivity].
  destruct (float_gt score f0_6); simpl; [reflexivity|].
  destruct (agent_run_sync env prompt); reflexivity.
Qed.

(** C6: the first thing the script does with the prompt is the
    moderation call; the agent is run only on a prompt whose score is
    not above 0.6; and on a prompt whose score is above 0.6 the script
    makes the moderation call, prints the refusal and ends with status 1,
    with no agent run, search or extraction among its events. *)
Theorem main_moderates_before_agent env prompt :
  (∃ rest, events (Main.main lib env prompt) = EvGuard prompt :: rest)
  ∧ (EvAgentRun prompt ∈ events (Main.main lib env prompt) →
     ∃ score, value (Main.llama_guard lib env prompt) = Ok score
              ∧ float_gt score f0_6 = false)
  ∧ (∀ score,
       value (Main.llama_guard lib env prompt) = Ok score →
       float_gt score f0_6 = true →
       Main.main lib env prompt
       = (Ok 1, [EvGuard prompt; EvPrint (py "Prompt is not safe. Exiting.")])
       ∧ Main.exit_status lib env prompt = 1
       ∧ ∀ ev, ev ∈ events (Main.main lib env prompt) → is_agent_activity ev = false).
Proof.
  unfold Main.exit_status. rewrite main_cases.
  destruct (value (Main.llama_guard lib env prompt)) as [score|e].
  - destruct (float_gt score f0_6) eqn:Hgt.
    + split; [eauto|]. split.
      * simpl. intros Hin. apply elem_of_cons in Hin as [[=]|Hin].
        apply list_elem_of_singleton in Hin. discriminate.
      * intros s [= <-] _. split; [done|]. split; [done|].
        simpl. intros ev Hin. apply elem_of_cons in Hin as [->|Hin]; [done|].
        apply list_elem_of_singleton in Hin. by subst.
    + split; [destruct (agent_run_sync env prompt); simpl; eauto|].
      split; [eauto|]. intros s [= <-] Hs. congruence.
  - split; [simpl; eauto|]. split; [|done].
    simpl. intros Hin. apply list_elem_of_singleton in Hin. discriminate.
Qed.

(** C2: on one and the same score the two gates decide oppositely: the
    script admits the prompt exactly when [extract_content] does not
    admit a fetched page with that score. *)
Theorem gates_decide_oppositely env prompt url f result score :
  value (Main.llama_guard lib env prompt) = Ok score →
  crawler_arun env url (if truthy_opt f then f else None) = Ok result →
  cr_success result = true →
  value (Crawler.llama_guard lib env
           (Crawler._clean_content lib (Crawler.page_content result))) = Ok score →
  prompt_admitted lib env prompt ↔ ¬ page_admitted lib env url f.
Proof.
  intros Hp Hc Hs Hg. unfold prompt_admitted, page_admitted.
  rewrite main_cases, Hp, extract_content_value, Hc. simpl.
  rewrite Hs, Hg. simpl.
  destruct (float_gt score f0_6); simpl.
  - split.
    + intros Hin. apply elem_of_cons in Hin as [[=]|Hin].
      apply list_elem_of_singleton in Hin. discriminate.
    + intros Hn. destruct Hn. eauto.
  - split.
    + intros _ (r & [= <-] & Hr). discriminate.
    + intros _. destruct (agent_run_sync env prompt); simpl;
        apply elem_of_cons; right; apply elem_of_cons; by left.
Qed.

End GateFacts.

(** ** The search tool *)
Section ExaFacts.

Lemma lstrip_whitespace (s : pystr) :
  forallb py_isspace s = true → lstrip s = [].
Proof.
  induction s as [|c s IH]; simpl; [done|].
  intros H. apply andb_true_iff in H as [-> Hs]. by apply IH.
Qed.

Lemma strip_whitespace (s : pystr) :
  forallb py_isspace s = true → strip s = [].
Proof. intros H. unfold strip, rstrip. by rewrite (lstrip_whitespace _ H). Qed.

Lemma py_in_elem_of x xs : Exa.py_in x xs = true ↔ x ∈ xs.
Proof.
  unfold Exa.py_in. rewrite existsb_exists. split.
  - intros (y & Hy & Heq). apply bool_decide_eq_true in Heq. subst.
    by apply list_elem_of_In.
  - intros Hin. exists x. split; [by apply list_elem_of_In|].
    by apply bool_decide_eq_true.
Qed.

(** C3: a call of [search] with an empty or all-whitespace query, a
    result count outside 1..100, a search type other than "auto",
    "neural" and "keyword", or a subpage count outside 0..5 raises
    [ExaSearchException] and emits no event: the request to the search
    API is not made. *)
Theorem search_validates_before_network tool env query a :
  query = [] ∨ forallb py_isspace query = true
  ∨ Exa.num_results a < 1 ∨ 100 < Exa.num_results a
  ∨ Exa.search_type a ∉ Exa.search_types
  ∨ Exa.subpages a < 0 ∨ 5 < Exa.subpages a →
  ∃ msg, Exa.search tool env query a = (Raise (Exn ExaSearchException msg), []).
Proof.
  intros H. unfold Exa.search, raise.
  destruct (negb (truthy query) || negb (truthy (strip query))) eqn:Hq; [eauto|].
  destruct ((Exa.num_results a <? 1) || (100 <? Exa.num_results a)) eqn:Hn; [eauto|].
  destruct (negb (Exa.py_in (Exa.search_type a) Exa.search_types)) eqn:Ht; [eauto|].
  destruct ((Exa.subpages a <? 0) || (5 <? Exa.subpages a)) eqn:Hs; [eauto|].
  exfalso.
  apply orb_false_iff in Hq as [Hq1 Hq2].
  apply orb_false_iff in Hn as [Hn1 Hn2].
  apply orb_false_iff in Hs as [Hs1 Hs2].
  apply negb_false_iff in Ht. apply py_in_elem_of in Ht.
  destruct H as [->|[Hw|[Hlo|[Hhi|[Hty|[Hlo|Hhi]]]]]]; try lia; try done.
  by rewrite (strip_whitespace _ Hw) in Hq2.
Qed.

(** A call that passes the validation makes exactly one request. *)
Lemma search_valid_requests_once tool env query a :
  truthy query = true → truthy (strip query) = true →
  1 ≤ Exa.num_results a ≤ 100 →
  Exa.search_type a ∈ Exa.search_types →
  0 ≤ Exa.subpages a ≤ 5 →
  events (Exa.search tool env query a) = [EvExa (Exa.search_params query a)].
Proof.
  intros Hq Hq' Hn Ht Hs. unfold Exa.search.
  apply py_in_elem_of in Ht. rewrite Hq, Hq', Ht.
  replace ((Exa.num_results a <? 1) || (100 <? Exa.num_results a)) with false by lia.
  replace ((Exa.subpages a <? 0) || (5 <? Exa.subpages a)) with false by lia.
  cbn [negb orb]. run_effects.
  destruct (exa_search_and_contents env (Exa.search_params query a)); reflexivity.
Qed.

(** Whatever goes wrong, [search] raises the domain exception only. *)
Lemma search_raises_domain_exception tool env query a e :
  value (Exa.search tool env query a) = Raise e → exn_cls e = ExaSearchException.
Proof.
  unfold Exa.search. run_effects.
  repeat case_match; simpl; intros [= <-]; try reflexivity.
  all: simplify_eq; reflexivity.
Qed.

(** The results a query contributes: its own when the search returns,
    none when it raises. *)
#[local] Abbreviation contribution r :=
  (match r with Ok rs => rs | Raise _ => [] end).

Lemma collect_domain_only (results : list (Result (list SearchResult))) acc :
  (∀ e, Raise e ∈ results → exn_cls e = ExaSearchException) →
  Exa.collect results acc
  = ret (acc ++ concat ((λ r, contribution r) <$> results)).
Proof.
  revert acc. induction results as [|[rs|e] results IH]; intros acc Hd; simpl.
  - by rewrite app_nil_r.
  - rewrite IH; [by rewrite <- app_assoc|].
    intros e He. apply Hd. by right.
  - rewrite (Hd e) by by left.
    rewrite bool_decide_eq_true_2 by done.
    rewrite IH; [by rewrite !app_nil_r|].
    intros e' He'. apply Hd. by right.
Qed.

Lemma init_with_key env :
  truthy_opt (getenv env (py "EXA_API_KEY")) = true →
  Exa.ExaSearchTool_init env None
  = ret (Exa.mkExaSearchTool (default [] (getenv env (py "EXA_API_KEY")))).
Proof. intros H. unfold Exa.ExaSearchTool_init. simpl. by rewrite H. Qed.

Lemma init_without_key env :
  truthy_opt (getenv env (py "EXA_API_KEY")) = false →
  Exa.ExaSearchTool_init env None
  = raise ExaSearchException
      (py "EXA API key must be provided or set in EXA_API_KEY environment variable").
Proof. intros H. unfold Exa.ExaSearchTool_init. simpl. by rewrite H. Qed.

(** C8: when an API key is configured, [exa_search] on a non-empty list
    of queries returns one flat list of search results: the
    concatenation, in the order of the queries, of what each query's
    search returned, a query whose search raised contributing nothing. *)
Theorem exa_search_flat env envs q qs a :
  truthy_opt (getenv env (py "EXA_API_KEY")) = true →
  ∃ tool,
    value (Exa.ExaSearchTool_init env None) = Ok tool
    ∧ value (Exa.exa_search env envs (inr (q :: qs)) a)
      = Ok (concat (imap (λ i query,
                            contribution (value (Exa.search tool (envs i) query a)))
                         (q :: qs))).
Proof.
  intros Hkey.
  exists (Exa.mkExaSearchTool (default [] (getenv env (py "EXA_API_KEY")))).
  rewrite (init_with_key _ Hkey). split; [reflexivity|].
  unfold Exa.exa_search. rewrite (init_with_key _ Hkey).
  rewrite (value_bind_ok _ _ _ (value_ret _)).
  unfold Exa.multi_search. cbn [truthy negb].
  rewrite (value_bind_ok _ _ _ (gather_value _)).
  rewrite collect_domain_only.
  - rewrite value_ret, app_nil_l. f_equal. f_equal.
    rewrite !fmap_imap. reflexivity.
  - intros e He. apply list_elem_of_fmap in He as (t & Ht & Hin).
    apply list_elem_of_lookup in Hin as [i Hi].
    apply list_lookup_imap_Some in Hi as (x & _ & ->).
    symmetry in Ht. exact (search_raises_domain_exception _ _ _ _ _ Ht).
Qed.

(** C9: when an API key is configured, [exa_search] on the empty list of
    queries raises [IndexError] from [query[0]], before any request is
    made: it returns no list and does not raise [ExaSearchException]. *)
Theorem exa_search_empty_list env envs a :
  truthy_opt (getenv env (py "EXA_API_KEY")) = true →
  Exa.exa_search env envs (inr []) a
  = (Raise (Exn IndexError (py "list index out of range")), []).
Proof.
  intros Hkey. unfold Exa.exa_search. by rewrite (init_with_key _ Hkey).
Qed.

End ExaFacts.

(** * Worked instances *)

Example strip_example : strip (py "  two words ") = py "two words".
Proof. reflexivity. Qed.

Example split_on_example :
  split_on newline (py "ab" ++ [newline] ++ py "c" ++ [newline])
  = [py "ab"; py "c"; []].
Proof. reflexivity. Qed.

Example clean_content_example :
  Crawler._clean_content Sample.lib Sample.page_text = Sample.page_text.
Proof. reflexivity. Qed.

Example float_gate_examples :
  float_gt Sample.f0_9 f0_6 = true ∧ float_gt Sample.f0_1 f0_6 = false
  ∧ float_gt f0_6 f0_6 = false ∧ float_gt S754_nan f0_6 = false
  ∧ float_gt (S754_infinity false) f0_6 = true.
Proof. repeat split; reflexivity. Qed.

(** A page scored 0.9 is handed on as a success, a page scored 0.1 is
    blocked. *)
Example extract_content_scored_0_9 :
  Crawler.extract_content Sample.lib Sample.env_high Sample.url_a None
  = (Ok (Sample.extracted Sample.url_a),
     [EvCrawl Sample.url_a None; EvGuard Sample.page_text]).
Proof. reflexivity. Qed.

Example extract_content_scored_0_1 :
  Crawler.extract_content Sample.lib Sample.env_low Sample.url_a None
  = (Ok (mkExtractionResult Sample.url_a false None None
           (Some (py "Content blocked by Llama Guard"))),
     [EvCrawl Sample.url_a None; EvGuard Sample.page_text]).
Proof. reflexivity. Qed.

(** A prompt scored 0.9 is refused, a prompt scored 0.1 reaches the
    agent. *)
Example main_scored_0_9 :
  Main.main Sample.lib Sample.env_high (py "hello")
  = (Ok 1, [EvGuard (py "hello"); EvPrint (py "Prompt is not safe. Exiting.")]).
Proof. reflexivity. Qed.

Example main_scored_0_1 :
  Main.main Sample.lib Sample.env_low (py "hello")
  = (Ok 0, [EvGuard (py "hello"); EvAgentRun (py "hello");
            EvPrint (py "model answer: answer")]).
Proof. reflexivity. Qed.

Example extract_multiple_one_down :
  value (Crawler.extract_multiple Sample.lib Sample.envs_one_down Sample.urls 10 None)
  = Ok (<[Sample.url_c := Sample.extracted Sample.url_c]>
          (<[Sample.url_b := Sample.unreachable Sample.url_b]>
             (<[Sample.url_a := Sample.extracted Sample.url_a]> ∅))).
Proof. reflexivity. Qed.

Example extract_multiple_duplicates :
  value (Crawler.extract_multiple Sample.lib Sample.envs_one_down
           [Sample.url_a; Sample.url_a; Sample.url_a] 10 None)
  = Ok {[ Sample.url_a := Sample.extracted Sample.url_a ]}.
Proof. vm_compute. reflexivity. Qed.

Lemma extract_content_admits_high_score_witness :
  value (Crawler.extract_content Sample.lib Sample.env_high Sample.url_a None)
  = Ok (Sample.extracted Sample.url_a).
Proof.
  exact (extract_content_admits_high_score Sample.lib Sample.env_high
           Sample.url_a None Sample.page Sample.f0_9
           eq_refl eq_refl eq_refl eq_refl).
Defined.

Lemma gates_decide_oppositely_witness :
  prompt_admitted Sample.lib Sample.env_high (py "hello")
  ↔ ¬ page_admitted Sample.lib Sample.env_high Sample.url_a None.
Proof.
  exact (gates_decide_oppositely Sample.lib Sample.env_high (py "hello")
           Sample.url_a None Sample.page Sample.f0_9
           eq_refl eq_refl eq_refl eq_refl).
Defined.

Lemma search_validates_before_network_witness :
  ∃ msg, Exa.search Sample.tool Sample.env_high (py "rocq") (Sample.asking_for 0)
         = (Raise (Exn ExaSearchException msg), []).
Proof.
  apply (search_validates_before_network Sample.tool Sample.env_high
           (py "rocq") (Sample.asking_for 0)).
  right; right; left. reflexivity.
Defined.

Lemma extract_multiple_isolates_failure_witness :
  ∃ r m m',
    value (Crawler.extract_content Sample.lib (Sample.envs_one_down 1) Sample.url_b None)
    = Ok r
    ∧ er_url r = Sample.url_b ∧ er_success r = false ∧ is_Some (er_error r)
    ∧ value (Crawler.extract_multiple Sample.lib Sample.envs_high Sample.urls 10 None)
      = Ok m
    ∧ value (Crawler.extract_multiple Sample.lib Sample.envs_one_down Sample.urls 10 None)
      = Ok m'
    ∧ (∀ k, k ≠ Sample.url_b → m' !! k = m !! k)
    ∧ (∀ k, k ∈ Sample.urls → is_Some (m' !! k))
    ∧ ((∀ j, (1 < j)%nat → Sample.urls !! j ≠ Some Sample.url_b) → m' !! Sample.url_b = Some r)
    ∧ (∀ rs1 rs2 e acc,
         Crawler.process_results (rs1 ++ Raise e :: rs2) acc
         = Crawler.process_results (rs1 ++ rs2) acc).
Proof.
  apply (extract_multiple_isolates_failure Sample.lib Sample.envs_high
           Sample.envs_one_down Sample.urls 1%nat Sample.url_b 10 None).
  - reflexivity.
  - intros j Hj. unfold Sample.envs_one_down, Sample.envs_high.
    destruct (Nat.eqb_spec j 1); [contradiction|reflexivity].
  - apply (fails_fetch_raises _ _ _ _ (Exn OtherError (py "connection refused"))).
    reflexivity.
Defined.

Lemma exa_search_flat_witness :
  value (Exa.exa_search Sample.env_high Sample.envs_one_down (inr Sample.queries)
           Exa.default_args)
  = Ok [Exa.search_result_of (Sample.hit Sample.url_a);
        Exa.search_result_of (Sample.hit Sample.url_a)].
Proof.
  destruct (exa_search_flat Sample.env_high Sample.envs_one_down
              (py "rocq") [py "coq"; py "lean"] Exa.default_args eq_refl)
    as (tool & _ & H).
  etransitivity; [exact H|]. reflexivity.
Defined.

(** Without an API key the tool cannot be built, and [exa_search] raises
    the domain exception whatever the queries are. *)
Lemma exa_search_without_key_raises :
  value (Exa.exa_search Sample.env_no_key Sample.envs_high (inr Sample.queries)
           Exa.default_args)
  = Raise (Exn ExaSearchException
             (py "EXA API key must be provided or set in EXA_API_KEY environment variable"))
  ∧ ¬ ∃ results,
      value (Exa.exa_search Sample.env_no_key Sample.envs_high (inr Sample.queries)
               Exa.default_args) = Ok results.
Proof. split; [reflexivity|]. intros [results H]. discriminate H. Qed.

Lemma exa_search_empty_list_witness :
  Exa.exa_search Sample.env_high Sample.envs_high (inr []) Exa.default_args
  = (Raise (Exn IndexError (py "list index out of range")), []).
Proof.
  exact (exa_search_empty_list Sample.env_high Sample.envs_high Exa.default_args eq_refl).
Defined.

(** Without an API key [exa_search] on the empty list raises the domain
    exception, not [IndexError]. *)
Lemma exa_search_empty_list_without_key :
  value (Exa.exa_search Sample.env_no_key Sample.envs_high (inr []) Exa.default_args)
  = Raise (Exn ExaSearchException
             (py "EXA API key must be provided or set in EXA_API_KEY environment variable"))
  ∧ ¬ ∃ msg,
      value (Exa.exa_search Sample.env_no_key Sample.envs_high (inr []) Exa.default_args)
      = Raise (Exn IndexError msg).
Proof. split; [reflexivity|]. intros [msg H]. discriminate H. Qed.

(** * Further properties of the code *)

(** ** Strings *)

(** A text that neither begins nor ends with whitespace. *)
#[local] Abbreviation trimmed s :=
  ((∀ c, head s = Some c → py_isspace c = false)
   ∧ (∀ c, last s = Some c → py_isspace c = false)).

Lemma last_rev_head {A} (l : list A) : last (rev l) = head l.
Proof. destruct l as [|x l]; [reflexivity|]. simpl. apply last_snoc. Qed.

Lemma lstrip_spec s :
  ∃ w, s = w ++ lstrip s ∧ forallb py_isspace w = true
       ∧ ∀ c, head (lstrip s) = Some c → py_isspace c = false.
Proof.
  induction s as [|c s (w & Hs & Hw & Hh)]; simpl.
  - exists []. repeat split; [done..|]. intros c [=].
  - destruct (py_isspace c) eqn:Hc.
    + exists (c :: w). simpl. rewrite Hc, Hw. split; [by f_equal|]. split; done.
    + exists []. simpl. split; [done|]. split; [done|]. by intros c' [= <-].
Qed.

Lemma rstrip_spec s :
  ∃ w, s = rstrip s ++ w ∧ forallb py_isspace w = true
       ∧ ∀ c, last (rstrip s) = Some c → py_isspace c = false.
Proof.
  unfold rstrip. destruct (lstrip_spec (rev s)) as (w & Hs & Hw & Hh).
  exists (rev w). split; [|split].
  - rewrite <- rev_app_distr, <- Hs. by rewrite rev_involutive.
  - rewrite forallb_forall in *. intros x Hx. apply Hw. by apply in_rev.
  - intros c. rewrite last_rev_head. apply Hh.
Qed.

(** [strip] takes whitespace off both ends and leaves a text with none
    at either end. *)
Lemma strip_spec s :
  ∃ w1 w2, s = w1 ++ strip s ++ w2
           ∧ forallb py_isspace w1 = true ∧ forallb py_isspace w2 = true
           ∧ trimmed (strip s).
Proof.
  unfold strip.
  destruct (lstrip_spec s) as (w1 & Hs & Hw1 & Hh).
  destruct (rstrip_spec (lstrip s)) as (w2 & Ht & Hw2 & Hl).
  exists w1, w2. split; [by rewrite <- Ht|]. split; [done|]. split; [done|].
  split; [|done]. intros c Hc. apply Hh.
  rewrite Ht. apply head_Some in Hc as [l' ->]. reflexivity.
Qed.

Lemma strip_trimmed s : trimmed s → strip s = s.
Proof.
  intros [Hh Hl]. unfold strip.
  assert (Hfix : ∀ t : pystr, (∀ c, head t = Some c → py_isspace c = false) → lstrip t = t).
  { intros [|c t] H; [done|]. simpl. by rewrite (H c eq_refl). }
  rewrite (Hfix s Hh). unfold rstrip. rewrite Hfix; [apply rev_involutive|].
  intros c. rewrite <- last_rev_head, rev_involutive. apply Hl.
Qed.

Lemma strip_idempotent s : strip (strip s) = strip s.
Proof.
  destruct (strip_spec s) as (w1 & w2 & _ & _ & _ & Ht). by apply strip_trimmed.
Qed.

Lemma strip_elem_of s c : c ∈ strip s → c ∈ s.
Proof.
  destruct (strip_spec s) as (w1 & w2 & Hs & _). intros Hc.
  rewrite Hs. apply elem_of_app. right. apply elem_of_app. by left.
Qed.

Lemma split_on_no_sep sep s l : l ∈ split_on sep s → sep ∉ l.
Proof.
  revert l. induction s as [|c s IH]; simpl; intros l Hl.
  - apply list_elem_of_singleton in Hl as ->. apply not_elem_of_nil.
  - destruct (N.eqb_spec c sep) as [->|Hne].
    + apply elem_of_cons in Hl as [->|Hl]; [apply not_elem_of_nil|by apply IH].
    + destruct (split_on sep s) as [|w ws] eqn:Hsp.
      * apply list_elem_of_singleton in Hl as ->.
        intros Hin. apply list_elem_of_singleton in Hin. congruence.
      * apply elem_of_cons in Hl as [->|Hl].
        -- intros Hin. apply elem_of_cons in Hin as [?|Hin]; [congruence|].
           revert Hin. apply IH. by left.
        -- apply IH. by right.
Qed.

Lemma split_on_piece sep l : sep ∉ l → split_on sep l = [l].
Proof.
  induction l as [|c l IH]; [done|]. intros Hn. simpl.
  destruct (N.eqb_spec c sep) as [->|Hne]; [destruct Hn; by left|].
  rewrite IH; [done|]. intros Hin. apply Hn. by right.
Qed.

Lemma split_on_app sep l rest :
  sep ∉ l → split_on sep (l ++ sep :: rest) = l :: split_on sep rest.
Proof.
  induction l as [|c l IH]; intros Hn; simpl.
  - by rewrite N.eqb_refl.
  - destruct (N.eqb_spec c sep) as [->|Hne]; [destruct Hn; by left|].
    rewrite IH; [done|]. intros Hin. apply Hn. by right.
Qed.

(** Splitting what [join] put together gives the parts back. *)
Lemma split_on_join sep (parts : list pystr) :
  parts ≠ [] → (∀ l, l ∈ parts → sep ∉ l) →
  split_on sep (join [sep] parts) = parts.
Proof.
  induction parts as [|p ps IH]; [done|]. intros _ Hn.
  destruct ps as [|q ps].
  - simpl. apply split_on_piece, Hn. by left.
  - change (join [sep] (p :: q :: ps)) with (p ++ sep :: join [sep] (q :: ps)).
    rewrite split_on_app by (apply Hn; by left).
    f_equal. apply IH; [done|]. intros l Hl. apply Hn. by right.
Qed.

Lemma join_trimmed sep (parts : list pystr) :
  (∀ l, l ∈ parts → l ≠ [] ∧ trimmed l) → trimmed (join sep parts).
Proof.
  induction parts as [|p ps IH]; intros H.
  - split; intros c [=].
  - destruct (H p) as (Hp & Hph & Hpl); [by left|].
    destruct ps as [|q ps]; [done|].
    change (join sep (p :: q :: ps)) with (p ++ sep ++ join sep (q :: ps)).
    destruct IH as [IHh IHl]; [intros l Hl; apply H; by right|].
    split; intros c Hc.
    + apply Hph. destruct p; [done|]. exact Hc.
    + apply IHl. rewrite !last_app in Hc.
      destruct (last (join sep (q :: ps))) as [x|] eqn:Hlast; [done|].
      apply last_None in Hlast.
      destruct (H q) as (Hq & _); [right; by left|].
      destruct ps as [|q' ps]; simpl in Hlast; [done|].
      by destruct q.
Qed.

(** ** Cleaning of the extracted text *)
Section CleaningFacts.
Variable lib : PyLib.

(** What the loop of [_clean_content] keeps. *)
Lemma clean_lines_spec lines :
  Crawler.clean_lines lib lines `sublist_of` (strip <$> lines)
  ∧ ∀ line, line ∈ Crawler.clean_lines lib lines →
      (10 < length line)%nat
      ∧ trimmed line
      ∧ ∀ pattern, pattern ∈ Crawler.skip_patterns →
                   re_match_ignorecase lib pattern line = false.
Proof.
  induction lines as [|raw lines [IHs IHl]].
  - split; [done|]. intros line Hin. by apply elem_of_nil in Hin.
  - rewrite fmap_cons.
    change (Crawler.clean_lines lib (raw :: lines)) with
      (if negb (truthy (strip raw)) then Crawler.clean_lines lib lines
       else if existsb (λ pattern, re_match_ignorecase lib pattern (strip raw))
                 Crawler.skip_patterns
            then Crawler.clean_lines lib lines
            else if (10 <? length (strip raw))%nat
                 then strip raw :: Crawler.clean_lines lib lines
                 else Crawler.clean_lines lib lines).
    destruct (negb (truthy (strip raw))) eqn:Hempty;
      [split; [by apply sublist_cons|done]|].
    destruct (existsb (λ pattern, re_match_ignorecase lib pattern (strip raw))
                Crawler.skip_patterns) eqn:Hskip;
      [split; [by apply sublist_cons|done]|].
    destruct (10 <? length (strip raw))%nat eqn:Hlen;
      [|split; [by apply sublist_cons|done]].
    split; [by apply sublist_skip|].
    intros line Hin. apply elem_of_cons in Hin as [->|Hin]; [|by apply IHl].
    split; [by apply Nat.ltb_lt|]. split.
    + by destruct (strip_spec raw) as (_ & _ & _ & _ & _ & Ht).
    + intros pattern Hp.
      destruct (re_match_ignorecase lib pattern (strip raw)) eqn:Hm; [|done].
      assert (existsb (λ pattern, re_match_ignorecase lib pattern (strip raw))
                Crawler.skip_patterns = true) as Hex; [|congruence].
      apply existsb_exists. exists pattern. split; [|done].
      by apply list_elem_of_In.
Qed.

(** X1: the loop of [_clean_content] keeps a line only as stripped of
    surrounding whitespace, longer than 10 characters and matched by none
    of the skip patterns; what it keeps are stripped input lines, in the
    order of the input. *)
Theorem clean_lines_kept lines :
  Crawler.clean_lines lib lines `sublist_of` (strip <$> lines)
  ∧ ∀ line, line ∈ Crawler.clean_lines lib lines →
      (10 < length line)%nat
      ∧ trimmed line
      ∧ ∀ pattern, pattern ∈ Crawler.skip_patterns →
                   re_match_ignorecase lib pattern line = false.
Proof. apply clean_lines_spec. Qed.

Lemma clean_lines_no_newline s line :
  line ∈ Crawler.clean_lines lib (split_on newline s) → newline ∉ line.
Proof.
  intros Hin.
  destruct (clean_lines_spec (split_on newline s)) as [Hsub _].
  apply (λ H, elem_of_sublist _ _ _ H Hsub) in Hin.
  apply list_elem_of_fmap in Hin as (raw & -> & Hraw).
  intros Hnl. apply strip_elem_of in Hnl.
  by apply (split_on_no_sep _ _ _ Hraw).
Qed.

(** X2: [_clean_content] returns a text without surrounding whitespace
    whose lines are exactly the lines its loop kept: the text is empty
    (always so for empty input), or each of its lines is longer than 10
    characters, has no surrounding whitespace and matches no skip
    pattern. *)
Theorem clean_content_lines content :
  Crawler._clean_content lib [] = []
  ∧ trimmed (Crawler._clean_content lib content)
  ∧ (Crawler._clean_content lib content = []
     ∨ ∀ line, line ∈ split_on newline (Crawler._clean_content lib content) →
         (10 < length line)%nat
         ∧ trimmed line
         ∧ ∀ pattern, pattern ∈ Crawler.skip_patterns →
                      re_match_ignorecase lib pattern line = false).
Proof.
  split; [reflexivity|].
  unfold Crawler._clean_content.
  destruct (negb (truthy content)); [split; [split; intros c [=]|by left]|].
  set (text := re_sub lib _ _ (re_sub lib _ _ content)).
  pose proof (clean_lines_spec (split_on newline text)) as [_ Hkept].
  pose proof (clean_lines_no_newline text) as Hnl.
  set (kept := Crawler.clean_lines lib (split_on newline text)) in *.
  assert (Hjoin : trimmed (join [newline] kept)).
  { apply join_trimmed. intros l Hl. destruct (Hkept l Hl) as (Hlen & Ht & _).
    split; [|done]. intros ->. simpl in Hlen. lia. }
  rewrite (strip_trimmed _ Hjoin). split; [done|].
  destruct kept as [|k kept'] eqn:Hk; [by left|]. right.
  rewrite <- Hk in *. rewrite split_on_join; [done| |done].
  rewrite Hk. done.
Qed.

(** X3: the title [_extract_title] returns is the first group of the
    match stripped of surrounding whitespace, so it has none; there is no
    title exactly when the pattern does not match. *)
Theorem extract_title_trimmed html :
  (∀ title, Crawler._extract_title lib html = Some title → trimmed title)
  ∧ (Crawler._extract_title lib html = None
     ↔ re_search_ignorecase_group1 lib (py "<title[^>]*>([^<]+)</title>") html = None).
Proof.
  unfold Crawler._extract_title.
  destruct (re_search_ignorecase_group1 lib _ html) as [g|]; split; try done.
  intros title [= <-].
  by destruct (strip_spec g) as (_ & _ & _ & _ & _ & Ht).
Qed.

End CleaningFacts.

(** ** Calls of the page extractor *)
Section CrawlerCalls.
Variable lib : PyLib.

(** The calls of one extraction. *)
Lemma extract_content_events env url f :
  events (Crawler.extract_content lib env url f) =
  match crawler_arun env url (if truthy_opt f then f else None) with
  | Ok result =>
      if cr_success result then
        [EvCrawl url (if truthy_opt f then f else None);
         EvGuard (Crawler._clean_content lib (Crawler.page_content result))]
      else [EvCrawl url (if truthy_opt f then f else None)]
  | Raise _ => [EvCrawl url (if truthy_opt f then f else None)]
  end.
Proof.
  unfold Crawler.extract_content, Crawler.llama_guard. run_effects.
  destruct (crawler_arun env url _) as [result|e]; simpl; [|reflexivity].
  destruct (cr_success result); simpl; [|reflexivity].
  destruct (chat_completions_create env _) as [c|e]; simpl; [|reflexivity].
  destruct (py_float lib c) as [score|e]; simpl; [|reflexivity].
  destruct (float_gt score f0_6); reflexivity.
Qed.

(** X4: [extract_content] calls the crawler exactly once, with the
    content filter it was given (an empty filter counting as none), and
    calls the moderation model only for a page that was fetched
    successfully, once, on the cleaned text of that page. *)
Theorem extract_content_calls env url f :
  events (Crawler.extract_content lib env url f) =
  match crawler_arun env url (if truthy_opt f then f else None) with
  | Ok result =>
      if cr_success result then
        [EvCrawl url (if truthy_opt f then f else None);
         EvGuard (Crawler._clean_content lib (Crawler.page_content result))]
      else [EvCrawl url (if truthy_opt f then f else None)]
  | Raise _ => [EvCrawl url (if truthy_opt f then f else None)]
  end.
Proof. apply extract_content_events. Qed.

Lemma extract_content_crawls_once env url f :
  omap crawled_url (events (Crawler.extract_content lib env url f)) = [url]
  ∧ omap crawl_filter (events (Crawler.extract_content lib env url f))
    = [if truthy_opt f then f else None].
Proof.
  rewrite extract_content_events.
  destruct (crawler_arun env url _) as [result|e]; [|done].
  by destruct (cr_success result).
Qed.

Lemma bounded_extract_events env f url :
  events (Crawler.bounded_extract lib env f url)
  = events (Crawler.extract_content lib env url f).
Proof.
  unfold Crawler.bounded_extract.
  destruct (extract_content_returns lib env url f) as [r Hr].
  rewrite (events_bind_ok _ _ _ Hr). apply app_nil_r.
Qed.

Lemma extract_multiple_events envs urls mc f :
  events (Crawler.extract_multiple lib envs urls mc f)
  = concat (imap (λ i url, events (Crawler.extract_content lib (envs i) url f)) urls).
Proof.
  unfold Crawler.extract_multiple.
  destruct urls as [|u urls]; [reflexivity|]. cbn [truthy negb].
  rewrite (events_bind_ok _ _ _ (gather_value _)), gather_events.
  simpl events at 2. rewrite app_nil_r, fmap_imap. f_equal.
  apply imap_ext. intros i x _. apply bounded_extract_events.
Qed.

Lemma crawled_urls_of_fan_out envs (urls : list pystr) f :
  omap crawled_url
    (concat (imap (λ i url, events (Crawler.extract_content lib (envs i) url f)) urls))
  = urls.
Proof.
  revert envs. induction urls as [|u urls IH]; intros envs; [reflexivity|].
  rewrite imap_cons. cbn [concat]. rewrite omap_app.
  rewrite (proj1 (extract_content_crawls_once _ _ _)). simpl. f_equal.
  exact (IH (λ i, envs (S i))).
Qed.

(** X5: [extract_multiple] calls the crawler once for every position of
    the list, a URL that occurs twice being fetched twice although it
    ends up as one entry, and always with the same content filter. *)
Theorem extract_multiple_fetches_every_position envs urls mc f :
  omap crawled_url (events (Crawler.extract_multiple lib envs urls mc f)) ≡ₚ urls
  ∧ ∀ ev filter, ev ∈ events (Crawler.extract_multiple lib envs urls mc f) →
                 crawl_filter ev = Some filter →
                 filter = if truthy_opt f then f else None.
Proof.
  rewrite extract_multiple_events. split.
  - by rewrite crawled_urls_of_fan_out.
  - intros ev filter Hin Hf.
    apply list_elem_of_In, in_concat in Hin as (evs & Hevs & Hin).
    apply list_elem_of_In, list_elem_of_lookup in Hevs as [i Hi].
    apply list_lookup_imap_Some in Hi as (url & _ & ->).
    apply list_elem_of_In in Hin.
    assert (Hfs : filter ∈ omap crawl_filter
                    (events (Crawler.extract_content lib (envs i) url f))).
    { apply list_elem_of_omap. eauto. }
    rewrite (proj2 (extract_content_crawls_once _ _ _)) in Hfs.
    by apply list_elem_of_singleton in Hfs.
Qed.

(** X6: when a URL occurs at several positions of the list, the entry
    [extract_multiple] returns for it is the result of its last
    position; the results of the earlier positions are overwritten. *)
Theorem extract_multiple_last_wins envs urls mc f i u r :
  urls !! i = Some u →
  (∀ j, (i < j)%nat → urls !! j ≠ Some u) →
  value (Crawler.extract_content lib (envs i) u f) = Ok r →
  ∃ m, value (Crawler.extract_multiple lib envs urls mc f) = Ok m
       ∧ m !! u = Some r.
Proof.
  intros Hi Hlast Hr. rewrite extract_multiple_value.
  eexists; split; [reflexivity|].
  assert (Hin : u ∈ urls) by by eapply list_elem_of_lookup_2.
  destruct (process_gathered_is_Some lib envs f urls u Hin) as [r' Hr'].
  destruct (process_gathered_lookup _ _ _ _ _ _ Hr') as (b & Hb & Hvb & Hlb).
  assert (i = b) as <- by by eapply last_position_unique.
  congruence.
Qed.

End CrawlerCalls.

Lemma extract_multiple_last_wins_witness :
  ∃ m, value (Crawler.extract_multiple Sample.lib Cases.envs_first_down
                Cases.urls_twice 10 None) = Ok m
       ∧ m !! Sample.url_a = Some (Sample.extracted Sample.url_a).
Proof.
  apply (extract_multiple_last_wins Sample.lib Cases.envs_first_down
           Cases.urls_twice 10 None 2%nat).
  - reflexivity.
  - intros j Hj. destruct j as [|[|[|j]]]; [lia..|done].
  - reflexivity.
Defined.

(** The same list with the failure at the last position: the success of
    the first position is lost. *)
Example extract_multiple_failure_overwrites :
  value (Crawler.extract_multiple Sample.lib
           (λ i, if (i =? 2)%nat then Sample.env_down else Sample.env_high)
           Cases.urls_twice 10 None)
  = Ok (<[Sample.url_b := Sample.extracted Sample.url_b]>
          {[ Sample.url_a := Sample.unreachable Sample.url_a ]}).
Proof. vm_compute. reflexivity. Qed.

(** ** Requests of the search tool *)
Section ExaCalls.

Lemma M_eta {A} (m : M A) : m = (value m, events m).
Proof. by destruct m. Qed.

Lemma bind_ret_l {A B} (a : A) (k : A → M B) : bind (ret a) k = k a.
Proof. unfold bind, ret. by destruct (k a). Qed.

(** What [search] does once its arguments are through the validation. *)
#[local] Abbreviation answered env query a :=
  (match exa_search_and_contents env (Exa.search_params query a) with
   | Ok raw_results =>
       (Ok (Exa.search_result_of <$> raw_results),
        [EvExa (Exa.search_params query a)])
   | Raise e =>
       (Raise (Exn ExaSearchException (py "EXA search failed: " ++ exn_msg e)),
        [EvExa (Exa.search_params query a)])
   end).

(** [search] either rejects its arguments without a request, or its
    arguments are valid and it makes its one request. *)
Lemma search_cases tool env query a :
  (∃ msg, Exa.search tool env query a = (Raise (Exn ExaSearchException msg), []))
  ∨ (truthy (strip query) = true
     ∧ 1 ≤ Exa.num_results a ≤ 100
     ∧ Exa.search_type a ∈ Exa.search_types
     ∧ 0 ≤ Exa.subpages a ≤ 5
     ∧ Exa.search tool env query a = answered env query a).
Proof.
  unfold Exa.search, raise.
  destruct (negb (truthy query) || negb (truthy (strip query))) eqn:Hq; [eauto|].
  destruct ((Exa.num_results a <? 1) || (100 <? Exa.num_results a)) eqn:Hn; [eauto|].
  destruct (negb (Exa.py_in (Exa.search_type a) Exa.search_types)) eqn:Ht; [eauto|].
  destruct ((Exa.subpages a <? 0) || (5 <? Exa.subpages a)) eqn:Hs; [eauto|].
  right.
  apply orb_false_iff in Hq as [_ Hq]. apply negb_false_iff in Hq.
  apply negb_false_iff, py_in_elem_of in Ht.
  split; [done|]. split; [lia|]. split; [done|]. split; [lia|].
  run_effects.
  destruct (exa_search_and_contents env (Exa.search_params query a)); reflexivity.
Qed.

Lemma search_result_title raw : sr_title (Exa.search_result_of raw) ≠ [].
Proof.
  unfold Exa.search_result_of; simpl.
  destruct (raw_title raw) as [[|c t]|]; simpl; done.
Qed.

(** X7: when the arguments are valid and the search API answers,
    [search] makes exactly one request and returns one result per answer
    of the API, in the same order and with the same URLs; no result has
    an empty title. *)
Theorem search_returns_mapped_results tool env query a raw_results :
  truthy (strip query) = true →
  1 ≤ Exa.num_results a ≤ 100 →
  Exa.search_type a ∈ Exa.search_types →
  0 ≤ Exa.subpages a ≤ 5 →
  exa_search_and_contents env (Exa.search_params query a) = Ok raw_results →
  ∃ results,
    Exa.search tool env query a = (Ok results, [EvExa (Exa.search_params query a)])
    ∧ length results = length raw_results
    ∧ sr_url <$> results = raw_url <$> raw_results
    ∧ ∀ result, result ∈ results → sr_title result ≠ [].
Proof.
  intros Hq Hn Ht Hs Hans.
  destruct (search_cases tool env query a) as [[msg Hrej]|(_ & _ & _ & _ & Hrun)].
  - pose proof (search_valid_requests_once tool env query a) as Hev.
    rewrite Hrej in Hev.
    assert (truthy query = true) as Hq' by (by destruct query).
    by specialize (Hev Hq' Hq Hn Ht Hs).
  - rewrite Hrun, Hans. eexists; split; [reflexivity|].
    split; [by rewrite length_fmap|]. split.
    + rewrite <- list_fmap_compose. reflexivity.
    + intros result Hin. apply list_elem_of_fmap in Hin as (raw & -> & _).
      apply search_result_title.
Qed.

(** X8: [search] raises nothing but [ExaSearchException]; when the
    arguments are valid and the search API fails, the exception carries
    the message of the failure behind "EXA search failed: ", and exactly
    one request was made. *)
Theorem search_wraps_service_failure tool env query a e :
  truthy (strip query) = true →
  1 ≤ Exa.num_results a ≤ 100 →
  Exa.search_type a ∈ Exa.search_types →
  0 ≤ Exa.subpages a ≤ 5 →
  exa_search_and_contents env (Exa.search_params query a) = Raise e →
  Exa.search tool env query a
  = (Raise (Exn ExaSearchException (py "EXA search failed: " ++ exn_msg e)),
     [EvExa (Exa.search_params query a)])
  ∧ ∀ tool' env' query' a' e',
      value (Exa.search tool' env' query' a') = Raise e' →
      exn_cls e' = ExaSearchException.
Proof.
  intros Hq Hn Ht Hs Hans. split.
  - destruct (search_cases tool env query a) as [[msg Hrej]|(_ & _ & _ & _ & Hrun)].
    + pose proof (search_valid_requests_once tool env query a) as Hev.
      rewrite Hrej in Hev.
      assert (truthy query = true) as Hq' by (by destruct query).
      by specialize (Hev Hq' Hq Hn Ht Hs).
    + by rewrite Hrun, Hans.
  - intros *. apply search_raises_domain_exception.
Qed.

Lemma when_truthy_nonempty {A} (o : option (list A)) : Exa.when_truthy o ≠ Some [].
Proof. by destruct o as [[|x l]|]. Qed.

(** X9: every request [search] sends to the search API is well formed:
    the query is not empty and has no surrounding whitespace, the result
    count is within 1..100, the search type is one of the three known
    ones, a subpage count is sent only when it is within 1..5, and no
    optional parameter is sent with an empty value. *)
Theorem search_request_well_formed tool env query a params :
  EvExa params ∈ events (Exa.search tool env query a) →
  params = Exa.search_params query a
  ∧ p_query params ≠ [] ∧ trimmed (p_query params)
  ∧ 1 ≤ p_num_results params ≤ 100
  ∧ p_type params ∈ Exa.search_types
  ∧ (∀ n target, p_subpages params = Some (n, target) → 1 ≤ n ≤ 5)
  ∧ p_extras params ≠ Some (false, false)
  ∧ p_category params ≠ Some [] ∧ p_summary params ≠ Some []
  ∧ p_include_domains params ≠ Some [] ∧ p_exclude_domains params ≠ Some []
  ∧ p_include_text params ≠ Some [] ∧ p_exclude_text params ≠ Some []
  ∧ p_start_crawl_date params ≠ Some [] ∧ p_end_crawl_date params ≠ Some []
  ∧ p_start_published_date params ≠ Some []
  ∧ p_end_published_date params ≠ Some [].
Proof.
  intros Hin.
  destruct (search_cases tool env query a) as [[msg Hrej]|(Hq & Hn & Ht & Hs & Hrun)].
  { rewrite Hrej in Hin. by apply elem_of_nil in Hin. }
  assert (params = Exa.search_params query a) as ->.
  { rewrite Hrun in Hin.
    destruct (exa_search_and_contents env (Exa.search_params query a));
      apply list_elem_of_singleton in Hin; congruence. }
  split; [done|]. simpl.
  split; [by destruct (strip query)|].
  split; [by destruct (strip_spec query) as (_ & _ & _ & _ & _ & Htr)|].
  split; [done|]. split; [done|].
  split.
  { intros n target. destruct (0 <? Exa.subpages a) eqn:Hpos; [|done].
    intros [= <- _]. lia. }
  split.
  { by destruct (Exa.include_links a), (Exa.include_image_links a). }
  repeat split; apply when_truthy_nonempty.
Qed.

(** X10: [ExaSearchTool.__init__] touches no service; it builds the tool
    exactly when the key it is given, or else the variable EXA_API_KEY,
    is a non-empty string, the given key coming first; the key of the
    tool is never empty; and all it raises is [ExaSearchException]. *)
Theorem tool_needs_key env key :
  events (Exa.ExaSearchTool_init env key) = []
  ∧ ((∃ tool, value (Exa.ExaSearchTool_init env key) = Ok tool)
     ↔ truthy_opt key = true ∨ truthy_opt (getenv env (py "EXA_API_KEY")) = true)
  ∧ (∀ tool, value (Exa.ExaSearchTool_init env key) = Ok tool →
       Exa.api_key tool ≠ []
       ∧ (truthy_opt key = true → key = Some (Exa.api_key tool))
       ∧ (truthy_opt key = false →
          getenv env (py "EXA_API_KEY") = Some (Exa.api_key tool)))
  ∧ (∀ e, value (Exa.ExaSearchTool_init env key) = Raise e →
       exn_cls e = ExaSearchException).
Proof.
  assert (Hnonempty : ∀ o : option pystr,
            truthy_opt o = true → o = Some (default [] o) ∧ default [] o ≠ []).
  { intros [[|c k]|]; simpl; done. }
  unfold Exa.ExaSearchTool_init. run_effects.
  destruct (truthy_opt key) eqn:Hk.
  - rewrite Hk. simpl. destruct (Hnonempty key Hk) as [Hkey Hne].
    split; [done|]. split; [split; eauto|]. split; [|by intros e [=]].
    intros tool [= <-]. simpl. split; [done|]. split; [done|]. by intros [=].
  - destruct (truthy_opt (getenv env (py "EXA_API_KEY"))) eqn:Hg; simpl.
    + destruct (Hnonempty _ Hg) as [Hkey Hne].
      split; [done|]. split; [split; eauto|]. split; [|by intros e [=]].
      intros tool [= <-]. simpl. split; [done|]. split; [by intros [=]|done].
    + split; [done|]. split; [split; [by intros [tool [=]]|by intros [[=]|[=]]]|].
      split; [by intros tool [=]|]. by intros e [= <-].
Qed.

(** What one query adds to the list [multi_search] returns. *)
#[local] Abbreviation contribution r :=
  (match r with Ok rs => rs | Raise _ => [] end).

(** The fan-out of [multi_search] and the loop over its outcomes. *)
Lemma fan_out_run tool envs (queries : list pystr) a :
  bind (gather (imap (λ i query, Exa.bounded_search tool a (envs i) query) queries))
       (λ results, Exa.collect results [])
  = (Ok (concat (imap (λ i query,
                         contribution (value (Exa.search tool (envs i) query a)))
                      queries)),
     concat (imap (λ i query, events (Exa.search tool (envs i) query a)) queries)).
Proof.
  set (tasks := imap _ queries).
  assert (Hcollect : Exa.collect (value <$> tasks) []
                     = ret (concat ((λ r, contribution r) <$> (value <$> tasks)))).
  { rewrite collect_domain_only; [done|].
    intros e He. apply list_elem_of_fmap in He as (t & Ht & Hin).
    apply list_elem_of_lookup in Hin as [i Hi].
    apply list_lookup_imap_Some in Hi as (x & _ & ->).
    symmetry in Ht. exact (search_raises_domain_exception _ _ _ _ _ Ht). }
  rewrite (M_eta (bind _ _)). f_equal.
  - rewrite (value_bind_ok _ _ _ (gather_value _)), Hcollect, value_ret.
    f_equal. f_equal. unfold tasks. rewrite !fmap_imap. reflexivity.
  - rewrite (events_bind_ok _ _ _ (gather_value _)), Hcollect, gather_events.
    simpl events at 2. rewrite app_nil_r. f_equal.
    unfold tasks. rewrite fmap_imap. reflexivity.
Qed.

Lemma requests_of_fan_out tool envs (queries : list pystr) a :
  (length (omap requested
             (concat (imap (λ i query, events (Exa.search tool (envs i) query a))
                           queries)))
   ≤ length queries)%nat.
Proof.
  revert envs. induction queries as [|q queries IH]; intros envs; [done|].
  rewrite imap_cons. cbn [concat]. rewrite omap_app, length_app.
  specialize (IH (λ i, envs (S i))).
  assert (length (omap requested (events (Exa.search tool (envs 0%nat) q a))) ≤ 1)%nat.
  { destruct (search_cases tool (envs 0%nat) q a)
      as [[msg ->]|(_ & _ & _ & _ & ->)]; [simpl; lia|].
    destruct (exa_search_and_contents _ _); simpl; lia. }
  simpl length at 3. unfold compose in *. lia.
Qed.

(** The queries of [multi_search] as a list. *)
#[local] Abbreviation as_list queries :=
  (match queries with inl q => [q] | inr qs => qs end).

(** X11: [multi_search] never raises, whatever its queries and
    arguments: a query whose search fails only contributes nothing, so
    that a call in which every search fails returns the empty list.  It
    makes at most one request per query, and none at all for an empty
    list or an empty string, for which it returns the empty list. *)
Theorem multi_search_never_raises tool envs queries max_concurrent a :
  (∃ results,
     value (Exa.multi_search tool envs queries max_concurrent a) = Ok results
     ∧ ((∀ i query, as_list queries !! i = Some query →
           ∃ e, value (Exa.search tool (envs i) query a) = Raise e) →
        results = []))
  ∧ (length (omap requested
               (events (Exa.multi_search tool envs queries max_concurrent a)))
     ≤ length (as_list queries))%nat
  ∧ (queries = inl [] ∨ queries = inr [] →
     Exa.multi_search tool envs queries max_concurrent a = (Ok [], [])).
Proof.
  assert (Hempty : queries = inl [] ∨ queries = inr [] →
            Exa.multi_search tool envs queries max_concurrent a = (Ok [], []))
    by (intros [->| ->]; reflexivity).
  destruct (decide (queries = inl [] ∨ queries = inr [])) as [He|Hne].
  { rewrite (Hempty He). split; [|split; [simpl; lia|done]].
    eexists; split; [reflexivity|done]. }
  assert (Hrun : Exa.multi_search tool envs queries max_concurrent a
                 = bind (gather (imap (λ i query,
                                         Exa.bounded_search tool a (envs i) query)
                                      (as_list queries)))
                        (λ results, Exa.collect results [])).
  { unfold Exa.multi_search.
    destruct queries as [[|c q]|[|q qs]]; try reflexivity; destruct Hne; auto. }
  rewrite Hrun, fan_out_run. split; [|split; [apply requests_of_fan_out|done]].
  eexists; split; [reflexivity|]. intros Hall.
  clear Hrun Hne Hempty. revert envs Hall.
  induction (as_list queries) as [|q qs IH]; intros envs Hall; [done|].
  rewrite imap_cons. cbn [concat].
  destruct (Hall 0%nat q eq_refl) as [e ->]. simpl.
  apply (IH (λ i, envs (S i))). intros i query Hi. exact (Hall (S i) query Hi).
Qed.

(** X12: with an API key configured and a result count, search type or
    subpage count that [search] rejects, [exa_search] on a non-empty list
    of queries returns the empty list without any request and without
    raising, whereas on a single query string it raises
    [ExaSearchException]. *)
Theorem exa_search_list_hides_rejection env envs q qs a :
  truthy_opt (getenv env (py "EXA_API_KEY")) = true →
  Exa.num_results a < 1 ∨ 100 < Exa.num_results a
  ∨ Exa.search_type a ∉ Exa.search_types
  ∨ Exa.subpages a < 0 ∨ 5 < Exa.subpages a →
  Exa.exa_search env envs (inr (q :: qs)) a = (Ok [], [])
  ∧ ∃ msg, Exa.exa_search env envs (inl q) a
           = (Raise (Exn ExaSearchException msg), []).
Proof.
  intros Hkey Hbad.
  assert (Hrej : ∀ tool env' query,
            ∃ msg, Exa.search tool env' query a
                   = (Raise (Exn ExaSearchException msg), [])).
  { intros tool env' query.
    destruct (search_cases tool env' query a) as [H|(_ & Hn & Ht & Hs & _)]; [done|].
    exfalso. destruct Hbad as [?|[?|[?|[?|?]]]]; try lia. done. }
  unfold Exa.exa_search. rewrite (init_with_key _ Hkey), !bind_ret_l. split.
  - unfold Exa.multi_search. cbn [truthy negb]. rewrite fan_out_run.
    set (tool := Exa.mkExaSearchTool _). clearbody tool.
    generalize (q :: qs). intros queries. revert envs.
    induction queries as [|x queries IH]; intros envs; [done|].
    rewrite !imap_cons. cbn [concat].
    destruct (Hrej tool (envs 0%nat) x) as [msg ->]. simpl.
    exact (IH (λ i, envs (S i))).
  - apply Hrej.
Qed.

End ExaCalls.

(** ** The agent's tool *)
Section AgentFacts.
Variable lib : PyLib.

#[local] Abbreviation contribution r :=
  (match r with Ok rs => rs | Raise _ => [] end).

#[local] Abbreviation as_list queries :=
  (match queries with inl q => [q] | inr qs => qs end).

(** The tool [exa_search] builds when a key is configured. *)
#[local] Abbreviation tool_of env :=
  (Exa.mkExaSearchTool (default [] (getenv env (py "EXA_API_KEY")))).

(** What the searches of a fan-out found, in the order of the queries. *)
#[local] Abbreviation found env envs queries a :=
  (concat (imap (λ i query,
                   contribution (value (Exa.search (tool_of env) (envs i) query a)))
                queries)).

#[local] Abbreviation safety_features := (Some (py "safety features")).

Lemma exa_search_list_run env envs (queries : list pystr) a :
  truthy_opt (getenv env (py "EXA_API_KEY")) = true →
  queries ≠ [] →
  Exa.exa_search env envs (inr queries) a
  = (Ok (found env envs queries a),
     concat (imap (λ i query, events (Exa.search (tool_of env) (envs i) query a))
                  queries)).
Proof.
  intros Hkey Hne. unfold Exa.exa_search.
  rewrite (init_with_key _ Hkey), bind_ret_l.
  destruct queries as [|q qs]; [done|].
  unfold Exa.multi_search. cbn [truthy negb]. apply fan_out_run.
Qed.

Lemma search_events_requests tool env query a ev :
  ev ∈ events (Exa.search tool env query a) → ∃ params, ev = EvExa params.
Proof.
  destruct (search_cases tool env query a) as [[msg ->]|(_ & _ & _ & _ & ->)].
  - intros Hin. by apply elem_of_nil in Hin.
  - destruct (exa_search_and_contents _ _); intros Hin;
      apply list_elem_of_singleton in Hin; eauto.
Qed.

Lemma fan_out_events_requests tool envs (queries : list pystr) a ev :
  ev ∈ concat (imap (λ i query, events (Exa.search tool (envs i) query a)) queries) →
  ∃ params, ev = EvExa params.
Proof.
  intros Hin. apply list_elem_of_In, in_concat in Hin as (evs & Hevs & Hin).
  apply list_elem_of_In, list_elem_of_lookup in Hevs as [i Hi].
  apply list_lookup_imap_Some in Hi as (query & _ & ->).
  apply list_elem_of_In in Hin. by eapply search_events_requests.
Qed.

Lemma omap_none {A B} (f : A → option B) (l : list A) :
  (∀ x, x ∈ l → f x = None) → omap f l = [].
Proof.
  induction l as [|x l IH]; intros H; [done|]. simpl.
  rewrite (H x) by by left. apply IH. intros y Hy. apply H. by right.
Qed.

Lemma extract_multiple_dom envs urls mc f :
  ∃ m, value (Crawler.extract_multiple lib envs urls mc f) = Ok m
       ∧ dom m = list_to_set urls.
Proof.
  rewrite extract_multiple_value. eexists; split; [reflexivity|].
  apply set_eq. intros k. rewrite elem_of_dom, elem_of_list_to_set. split.
  - intros [r Hr].
    destruct (process_gathered_lookup _ _ _ _ _ _ Hr) as (i & Hi & _).
    by eapply list_elem_of_lookup_2.
  - apply process_gathered_is_Some.
Qed.

(** The whole run of the tool on a query that is not the empty list,
    with a key configured. *)
Lemma agent_search_run env searches pages query n :
  truthy_opt (getenv env (py "EXA_API_KEY")) = true →
  as_list query ≠ [] →
  Agent.search lib env searches pages query n
  = bind (Ok (found env searches (as_list query) (Sample.asking_for n)),
          concat (imap (λ i q, events (Exa.search (tool_of env) (searches i) q
                                         (Sample.asking_for n)))
                       (as_list query)))
         (λ results,
            bind (Crawler.extract_multiple lib pages (sr_url <$> results) 10
                    safety_features)
                 (λ m, ret (inr m))).
Proof.
  intros Hkey Hne. unfold Agent.search.
  change (Exa.exa_search env searches (inr (as_list query)) _)
    with (Exa.exa_search env searches (inr (as_list query)) (Sample.asking_for n)).
  by rewrite (exa_search_list_run _ _ _ _ Hkey Hne).
Qed.

(** X13: with a key configured and a query that is not the empty list,
    the agent's tool never raises: it returns a mapping whose keys are
    exactly the URLs the searches found, having called the crawler once
    for each found result, every time with the content filter "safety
    features", whatever the query was. *)
Theorem agent_search_extracts_found_urls env searches pages query n :
  truthy_opt (getenv env (py "EXA_API_KEY")) = true →
  as_list query ≠ [] →
  ∃ results m,
    value (Exa.exa_search env searches (inr (as_list query)) (Sample.asking_for n))
    = Ok results
    ∧ value (Agent.search lib env searches pages query n) = Ok (inr m)
    ∧ dom m = list_to_set (sr_url <$> results)
    ∧ omap crawled_url (events (Agent.search lib env searches pages query n))
      ≡ₚ sr_url <$> results
    ∧ ∀ ev filter, ev ∈ events (Agent.search lib env searches pages query n) →
                   crawl_filter ev = Some filter →
                   filter = safety_features.
Proof.
  intros Hkey Hne.
  rewrite (agent_search_run _ _ _ _ _ Hkey Hne), (exa_search_list_run _ _ _ _ Hkey Hne).
  set (hits := found env searches (as_list query) (Sample.asking_for n)).
  set (requests := concat (imap _ (as_list query))).
  destruct (extract_multiple_dom pages (sr_url <$> hits) 10 safety_features)
    as (m & Hm & Hdom).
  exists hits, m. split; [done|].
  rewrite (value_bind_ok (Ok hits, requests) _ hits eq_refl), (value_bind_ok _ _ _ Hm).
  rewrite (events_bind_ok (Ok hits, requests) _ hits eq_refl), (events_bind_ok _ _ _ Hm).
  change (events (Ok hits, requests)) with requests.
  change (events (ret (inr m))) with (@nil Event). rewrite app_nil_r.
  split; [done|]. split; [done|].
  assert (Hreq : ∀ ev, ev ∈ requests → ∃ params, ev = EvExa params)
    by (intros ev; apply fan_out_events_requests).
  rewrite extract_multiple_events. split.
  - rewrite omap_app, crawled_urls_of_fan_out.
    rewrite omap_none; [done|].
    intros ev Hin. by destruct (Hreq ev Hin) as [params ->].
  - intros ev filter Hin Hf. apply elem_of_app in Hin as [Hin|Hin].
    + by destruct (Hreq ev Hin) as [params ->].
    + apply list_elem_of_In, in_concat in Hin as (evs & Hevs & Hin).
      apply list_elem_of_In, list_elem_of_lookup in Hevs as [i Hi].
      apply list_lookup_imap_Some in Hi as (url & _ & ->).
      apply list_elem_of_In in Hin.
      assert (Hfs : filter ∈ omap crawl_filter
                      (events (Crawler.extract_content lib (pages i) url
                                 safety_features))).
      { apply list_elem_of_omap. eauto. }
      rewrite (proj2 (extract_content_crawls_once _ _ _ _)) in Hfs.
      by apply list_elem_of_singleton in Hfs.
Qed.

(** X14: the agent's tool raises in two cases only, and then before any
    service is called: [ExaSearchException] when no API key is
    configured, and [IndexError] when the key is there and the query is
    the empty list. *)
Theorem agent_search_failures env searches pages query n :
  (truthy_opt (getenv env (py "EXA_API_KEY")) = false →
   ∃ msg, Agent.search lib env searches pages query n
          = (Raise (Exn ExaSearchException msg), []))
  ∧ (truthy_opt (getenv env (py "EXA_API_KEY")) = true → query = inr [] →
     Agent.search lib env searches pages query n
     = (Raise (Exn IndexError (py "list index out of range")), []))
  ∧ (∀ e, value (Agent.search lib env searches pages query n) = Raise e →
       events (Agent.search lib env searches pages query n) = []
       ∧ (truthy_opt (getenv env (py "EXA_API_KEY")) = false
          ∨ query = inr [])).
Proof.
  assert (Hnokey : truthy_opt (getenv env (py "EXA_API_KEY")) = false →
            ∃ msg, Agent.search lib env searches pages query n
                   = (Raise (Exn ExaSearchException msg), [])).
  { intros Hkey. unfold Agent.search, Exa.exa_search.
    rewrite (init_without_key _ Hkey). eexists. reflexivity. }
  assert (Hnone : truthy_opt (getenv env (py "EXA_API_KEY")) = true → query = inr [] →
            Agent.search lib env searches pages query n
            = (Raise (Exn IndexError (py "list index out of range")), [])).
  { intros Hkey ->. unfold Agent.search, Exa.exa_search.
    by rewrite (init_with_key _ Hkey). }
  split; [done|]. split; [done|]. intros e He.
  destruct (truthy_opt (getenv env (py "EXA_API_KEY"))) eqn:Hkey.
  - destruct (decide (query = inr [])) as [Hq|Hq].
    + rewrite (Hnone eq_refl Hq). auto.
    + exfalso.
      assert (Hne : as_list query ≠ []) by (destruct query as [q|[|q qs]]; done).
      rewrite (agent_search_run _ _ _ _ _ Hkey Hne) in He.
      set (hits := found env searches (as_list query) (Sample.asking_for n)) in He.
      rewrite (value_bind_ok (Ok hits, _) _ hits eq_refl) in He.
      destruct (extract_multiple_dom pages (sr_url <$> hits) 10 safety_features)
        as (m & Hm & _).
      by rewrite (value_bind_ok _ _ _ Hm) in He.
  - destruct (Hnokey eq_refl) as [msg ->]. auto.
Qed.

End AgentFacts.

(** ** The script *)
Section MainFacts.
Variable lib : PyLib.

(** X15: the script fails closed: when the moderation call raises, or
    its answer is not a number, the exception ends the script with
    status 1, the agent is not run and nothing is printed. *)
Theorem main_fails_closed env prompt e :
  value (Main.llama_guard lib env prompt) = Raise e →
  Main.main lib env prompt = (Raise e, [EvGuard prompt])
  ∧ Main.exit_status lib env prompt = 1.
Proof.
  intros He. unfold Main.exit_status. by rewrite main_cases, He.
Qed.


End MainFacts.

(** A score that is not a number passes the prompt gate. *)
Example main_scored_nan :
  Main.main (mkPyLib (λ _ _ s, s) (λ _ _, false) (λ _ _, None) (λ _, Ok S754_nan))
    Sample.env_high (py "hello")
  = (Ok 0, [EvGuard (py "hello"); EvAgentRun (py "hello");
            EvPrint (py "model answer: answer")]).
Proof. reflexivity. Qed.

(** ** The logger *)
Section LoggerFacts.

(** The body of the loop of [get_repo_root]. *)
Lemma climb_loop isdir fallback (current : Logger.path) :
  Logger.climb isdir fallback (rev current) =
  let parent := Logger.dirname current in
  if isdir (Logger.path_join parent (py "logs")) then parent
  else if bool_decide (parent = current) then fallback
  else Logger.climb isdir fallback (rev parent).
Proof.
  destruct current as [|x l _] using rev_ind.
  - simpl. by destruct (isdir _).
  - unfold Logger.dirname. rewrite rev_unit, removelast_last.
    cbn [Logger.climb]. rewrite rev_involutive. cbv zeta.
    destruct (isdir _); [done|].
    rewrite bool_decide_eq_false_2; [done|].
    intros H. apply (f_equal length) in H. rewrite length_app in H. simpl in H. lia.
Qed.

Lemma prefix_snoc_cases {A} (p l : list A) x :
  p `prefix_of` l ++ [x] → p = l ++ [x] ∨ p `prefix_of` l.
Proof.
  intros [k Hk]. destruct k as [|y k _] using rev_ind.
  - left. by rewrite app_nil_r in Hk.
  - right. rewrite app_assoc in Hk. apply app_inj_tail in Hk as [-> _].
    by exists k.
Qed.

Lemma dirname_snoc (l : Logger.path) x : Logger.dirname (l ++ [x]) = l.
Proof. apply removelast_last. Qed.

Lemma climb_nearest isdir fallback (dir : Logger.path) :
  let root := Logger.climb isdir fallback (rev dir) in
  (isdir (Logger.path_join root (py "logs")) = true
   ∧ root `prefix_of` Logger.dirname dir
   ∧ ∀ p, p `prefix_of` Logger.dirname dir →
          isdir (Logger.path_join p (py "logs")) = true →
          (length p ≤ length root)%nat)
  ∨ (root = fallback
     ∧ ∀ p, p `prefix_of` Logger.dirname dir →
            isdir (Logger.path_join p (py "logs")) = false).
Proof.
  induction dir as [|x l IH] using rev_ind.
  - simpl. destruct (isdir (Logger.path_join [] (py "logs"))) eqn:Hd.
    + left. split; [done|]. split; [done|]. intros p Hp _.
      apply prefix_nil_inv in Hp as ->. done.
    + right. split; [done|]. intros p Hp. by apply prefix_nil_inv in Hp as ->.
  - cbv zeta in *. rewrite !dirname_snoc, rev_unit.
    cbn [Logger.climb]. rewrite rev_involutive.
    assert (Hcases : ∀ p, p `prefix_of` l → p = l ∨ p `prefix_of` Logger.dirname l).
    { intros p Hp. destruct l as [|y l' _] using rev_ind.
      - left. by apply prefix_nil_inv in Hp.
      - rewrite dirname_snoc. by apply prefix_snoc_cases. }
    destruct (isdir (Logger.path_join l (py "logs"))) eqn:Hd.
    + left. split; [done|]. split; [done|]. intros p Hp _. by apply prefix_length.
    + destruct IH as [(Hr & Hpre & Hnear)|(Hr & Hnone)].
      * left. split; [done|]. split.
        { etransitivity; [exact Hpre|].
          destruct l as [|y l' _] using rev_ind; [done|].
          rewrite dirname_snoc. by exists [y]. }
        intros p Hp Hlogs. destruct (Hcases p Hp) as [->|Hp']; [congruence|].
        by apply Hnear.
      * right. split; [done|]. intros p Hp.
        destruct (Hcases p Hp) as [->|Hp']; [done|]. by apply Hnone.
Qed.

(** X17: [get_repo_root] returns the nearest directory above logger.py
    that holds a [logs] directory; when no directory above it does, it
    returns the directory of logger.py itself. *)
Theorem get_repo_root_nearest isdir file :
  (isdir (Logger.path_join (Logger.get_repo_root isdir file) (py "logs")) = true
   ∧ Logger.get_repo_root isdir file `prefix_of` Logger.dirname file
   ∧ ∀ p, p `prefix_of` Logger.dirname file →
          isdir (Logger.path_join p (py "logs")) = true →
          (length p ≤ length (Logger.get_repo_root isdir file))%nat)
  ∨ (Logger.get_repo_root isdir file = Logger.dirname file
     ∧ ∀ p, p `prefix_of` Logger.dirname file →
            isdir (Logger.path_join p (py "logs")) = false).
Proof. apply climb_nearest. Qed.

End LoggerFacts.

Section LoggerStateFacts.
Variables (environ : pystr → option pystr) (isdir : Logger.path → bool).
Variables (file : Logger.path) (name : pystr).
Variable loggers : gmap pystr Logger.LoggerState.

#[local] Abbreviation configured := (Logger.get_logger environ isdir file name loggers).

(** X18: a logger is configured once: a second call of [get_logger] from
    the same module leaves every logger as the first call left it, adds
    no handler and touches no file, also when the environment or the
    file system changed in between. *)
Theorem get_logger_configures_once environ' isdir' :
  Logger.get_logger environ' isdir' file name configured.1 = (configured.1, []).
Proof.
  unfold Logger.get_logger.
  destruct (loggers !! name) as [[lv hs pr]|] eqn:Hl; simpl.
  - destruct hs as [|h hs]; simpl.
    + rewrite lookup_insert_eq. simpl.
      destruct (bool_decide (environ (py "CURRENT_ENV") = Some (py "DEV"))); simpl.
      all: by rewrite insert_insert_eq.
    + rewrite lookup_insert_eq. simpl. by rewrite insert_insert_eq.
  - rewrite lookup_insert_eq. simpl.
    destruct (bool_decide (environ (py "CURRENT_ENV") = Some (py "DEV"))); simpl.
    all: by rewrite insert_insert_eq.
Qed.

(** X19: [get_logger] changes no logger but the caller's, which ends up
    at level INFO with at least one handler, the handlers it already had
    being kept as they were; it touches the file system only when
    CURRENT_ENV is DEV, and then only to make the [logs] directory under
    the repository root and to open the caller's log file in it. *)
Theorem get_logger_effects :
  (∀ other, other ≠ name → configured.1 !! other = loggers !! other)
  ∧ (∃ logger, configured.1 !! name = Some logger
               ∧ Logger.level logger = Logger.INFO
               ∧ Logger.handlers logger ≠ []
               ∧ ∀ before, loggers !! name = Some before →
                           Logger.handlers before ≠ [] →
                           Logger.handlers logger = Logger.handlers before
                           ∧ Logger.propagate logger = Logger.propagate before)
  ∧ (environ (py "CURRENT_ENV") ≠ Some (py "DEV") → configured.2 = [])
  ∧ (configured.2 = []
     ∨ configured.2
       = [Logger.Makedirs
            (Logger.path_join (Logger.get_repo_root isdir file) (py "logs"));
          Logger.OpenAppend
            (Logger.path_join
               (Logger.path_join (Logger.get_repo_root isdir file) (py "logs"))
               (name ++ py ".log"))]).
Proof.
  unfold Logger.get_logger.
  set (logger := default Logger.new_logger (loggers !! name)).
  cbn [Logger.handlers Logger.propagate Logger.level].
  destruct (Logger.handlers logger) as [|h hs] eqn:Hh; cbn [truthy negb app fst snd].
  - split; [intros other Hne; by rewrite lookup_insert_ne|].
    split.
    { eexists. rewrite lookup_insert_eq. split; [reflexivity|]. simpl.
      split; [done|]. split.
      - by destruct (bool_decide _).
      - intros before Hb Hne. unfold logger in Hh. rewrite Hb in Hh. simpl in Hh.
        congruence. }
    split.
    + intros Hdev. by rewrite bool_decide_eq_false_2.
    + destruct (bool_decide _); [by right|by left].
  - split; [intros other Hne; by rewrite lookup_insert_ne|].
    split; [|by split; [|left]].
    eexists. rewrite lookup_insert_eq. split; [reflexivity|]. simpl.
    split; [done|]. split; [done|].
    intros before Hb _. rewrite <- Hh. unfold logger. by rewrite Hb.
Qed.

End LoggerStateFacts.

(** * Further worked instances *)

Example clean_lines_example :
  Crawler.clean_lines Sample.lib
    [py "  short "; py ""; py "   a line that is long enough  "]
  = [py "a line that is long enough"].
Proof. reflexivity. Qed.

Example get_repo_root_example :
  Logger.get_repo_root Cases.isdir_app Cases.logger_file = [py "srv"; py "app"]
  ∧ Logger.get_repo_root (λ _, false) Cases.logger_file
    = [py "srv"; py "app"; py "src"; py "utils"].
Proof. split; reflexivity. Qed.

Example get_logger_dev_example :
  Logger.get_logger Cases.environ_dev Cases.isdir_app Cases.logger_file (py "exa") ∅
  = ({[ py "exa" :=
          Logger.mkLoggerState 20
            [Logger.FileHandler [py "srv"; py "app"; py "logs"; py "exa.log"]
               Logger.formatter;
             Logger.StreamHandler Logger.formatter]
            false ]},
     [Logger.Makedirs [py "srv"; py "app"; py "logs"];
      Logger.OpenAppend [py "srv"; py "app"; py "logs"; py "exa.log"]]).
Proof. vm_compute. reflexivity. Qed.

Example agent_search_example :
  value (Agent.search Sample.lib Cases.env_two_hits Cases.envs_two_hits
           Sample.envs_one_down (inl (py "rocq")) 5)
  = Ok (inr (<[Sample.url_b := Sample.unreachable Sample.url_b]>
               {[ Sample.url_a := Sample.extracted Sample.url_a ]})).
Proof. vm_compute. reflexivity. Qed.

Lemma search_returns_mapped_results_witness :
  ∃ results,
    Exa.search Sample.tool Cases.env_two_hits (py " rocq ") Exa.default_args
    = (Ok results, [EvExa (Exa.search_params (py " rocq ") Exa.default_args)])
    ∧ length results = 2%nat
    ∧ sr_url <$> results = [Sample.url_a; Sample.url_b]
    ∧ ∀ result, result ∈ results → sr_title result ≠ [].
Proof.
  apply (search_returns_mapped_results Sample.tool Cases.env_two_hits (py " rocq ")
           Exa.default_args [Sample.hit Sample.url_a; Sample.hit Sample.url_b]).
  - reflexivity.
  - simpl. lia.
  - apply py_in_elem_of. reflexivity.
  - simpl. lia.
  - reflexivity.
Defined.

Lemma search_wraps_service_failure_witness :
  Exa.search Sample.tool Sample.env_down (py "rocq") Exa.default_args
  = (Raise (Exn ExaSearchException (py "EXA search failed: connection refused")),
     [EvExa (Exa.search_params (py "rocq") Exa.default_args)]).
Proof.
  refine (proj1 (search_wraps_service_failure Sample.tool Sample.env_down (py "rocq")
                   Exa.default_args (Exn OtherError (py "connection refused"))
                   _ _ _ _ _)).
  - reflexivity.
  - simpl. lia.
  - apply py_in_elem_of. reflexivity.
  - simpl. lia.
  - reflexivity.
Defined.

Lemma search_request_well_formed_witness :
  p_query (Exa.search_params (py " rocq ") Exa.default_args) = py "rocq"
  ∧ 1 ≤ p_num_results (Exa.search_params (py " rocq ") Exa.default_args) ≤ 100
  ∧ p_type (Exa.search_params (py " rocq ") Exa.default_args) ∈ Exa.search_types.
Proof.
  destruct (search_request_well_formed Sample.tool Sample.env_high (py " rocq ")
              Exa.default_args (Exa.search_params (py " rocq ") Exa.default_args))
    as (_ & _ & _ & Hn & Ht & _).
  - apply list_elem_of_here.
  - split; [reflexivity|]. split; assumption.
Defined.

Lemma exa_search_list_hides_rejection_witness :
  Exa.exa_search Sample.env_high Sample.envs_high (inr [py "rocq"; py "coq"])
    (Sample.asking_for 0)
  = (Ok [], [])
  ∧ ∃ msg, Exa.exa_search Sample.env_high Sample.envs_high (inl (py "rocq"))
             (Sample.asking_for 0)
           = (Raise (Exn ExaSearchException msg), []).
Proof.
  apply (exa_search_list_hides_rejection Sample.env_high Sample.envs_high
           (py "rocq") [py "coq"] (Sample.asking_for 0)).
  - reflexivity.
  - left. reflexivity.
Defined.

Lemma agent_search_extracts_found_urls_witness :
  ∃ results m,
    value (Exa.exa_search Cases.env_two_hits Cases.envs_two_hits (inr [py "rocq"])
             (Sample.asking_for 5)) = Ok results
    ∧ value (Agent.search Sample.lib Cases.env_two_hits Cases.envs_two_hits
               Sample.envs_one_down (inl (py "rocq")) 5) = Ok (inr m)
    ∧ dom m = list_to_set (sr_url <$> results)
    ∧ omap crawled_url
        (events (Agent.search Sample.lib Cases.env_two_hits Cases.envs_two_hits
                   Sample.envs_one_down (inl (py "rocq")) 5))
      ≡ₚ sr_url <$> results
    ∧ ∀ ev filter,
        ev ∈ events (Agent.search Sample.lib Cases.env_two_hits Cases.envs_two_hits
                       Sample.envs_one_down (inl (py "rocq")) 5) →
        crawl_filter ev = Some filter →
        filter = Some (py "safety features").
Proof.
  apply (agent_search_extracts_found_urls Sample.lib Cases.env_two_hits
           Cases.envs_two_hits Sample.envs_one_down (inl (py "rocq")) 5).
  - reflexivity.
  - intros H. discriminate H.
Defined.

Lemma main_fails_closed_witness :
  Main.main Sample.lib Cases.env_guard_down (py "hello")
  = (Raise (Exn OtherError (py "connection refused")), [EvGuard (py "hello")])
  ∧ Main.exit_status Sample.lib Cases.env_guard_down (py "hello") = 1.
Proof.
  exact (main_fails_closed Sample.lib Cases.env_guard_down (py "hello")
           (Exn OtherError (py "connection refused")) eq_refl).
Defined.
